(** * typedjson.decoding: a shallow embedding of the type-directed decoder

    The development follows [typedjson/decoding.py]: the error model
    ([TypeMismatch], [UnsupportedDecoding], [InitializationError],
    [DecodingError]), the seven decoding strategies and the dispatcher
    [decode] that consults them in order.

    Python values are a closed inductive type, type descriptors a tree, and
    a call that may raise lives in the small monad [res].  The functions of
    [typedjson.annotation] that the engine imports are modelled on the
    descriptor tree.  The first part of the file holds the definitions, the
    second the properties: the recursion equation of [decode], what the
    dispatcher returns on each kind of descriptor, then one section per
    strategy. *)

From Stdlib Require Import List String Ascii ZArith Bool Arith Lia.
From Stdlib Require Import DecimalString.
From Stdlib Require Floats.SpecFloat.
Import ListNotations.

Local Open Scope string_scope.
Local Open Scope list_scope.

Set Implicit Arguments.
Set Warnings "-register-all".

(* ------------------------------------------------------------------ *)
(** ** Python values *)

(** Runtime classes, the results of [type(x)]. *)
Inductive pyclass :=
| CStr | CInt | CBool | CNoneType | CDate | CDatetime | CFloat
| CList | CTuple | CDict | CObject
| CUser (name : string).

Definition pyclass_eqb (a b : pyclass) : bool :=
  match a, b with
  | CStr, CStr | CInt, CInt | CBool, CBool | CNoneType, CNoneType
  | CDate, CDate | CDatetime, CDatetime | CFloat, CFloat
  | CList, CList | CTuple, CTuple | CDict, CDict | CObject, CObject => true
  | CUser n, CUser m => String.eqb n m
  | _, _ => false
  end.

(** [issubclass(a, b)] on the classes above: [bool] derives from [int],
    [datetime] from [date], everything from [object]. *)
Definition issubclass (a b : pyclass) : bool :=
  match a, b with
  | _, CObject => true
  | CBool, CInt => true
  | CDatetime, CDate => true
  | _, _ => pyclass_eqb a b
  end.

(** A Python object.  [VDict] keeps the entries in insertion order, which is
    the order [dict.items()] yields them in; the keys of a dict are pairwise
    distinct.  [VDate] and [VDatetime] carry an ordinal that stands for the
    calendar value.  [VObj] is an instance of a record class: it has no
    [__len__] and no [__iter__]. *)
Inductive value :=
| VNone
| VBool (b : bool)
| VInt (z : Z)
| VFloat (f : SpecFloat.spec_float)
| VStr (s : string)
| VDate (d : Z)
| VDatetime (d : Z)
| VList (l : list value)
| VTuple (l : list value)
| VDict (d : list (value * value))
| VObj (cls : string) (fields : list (string * value)).

(** [type(json)] *)
Definition type_of (json : value) : pyclass :=
  match json with
  | VNone => CNoneType
  | VBool _ => CBool
  | VInt _ => CInt
  | VFloat _ => CFloat
  | VStr _ => CStr
  | VDate _ => CDate
  | VDatetime _ => CDatetime
  | VList _ => CList
  | VTuple _ => CTuple
  | VDict _ => CDict
  | VObj cls _ => CUser cls
  end.

(** [isinstance(json, cls)] *)
Definition isinstance (json : value) (cls : pyclass) : bool :=
  issubclass (type_of json) cls.

(* ------------------------------------------------------------------ *)
(** ** Exceptions and the result monad *)

(** The exceptions a call inside the engine can raise.  [ExForeign] is an
    exception of a constructor the engine calls. *)
Inductive exn :=
| ExTypeError (msg : string)
| ExIndexError
| ExValueError
| ExRuntimeError
| ExUnboundLocalError
| ExOverflowError
| ExRecursionError
| ExForeign (name : string).

(** A Python call either returns or raises. *)
Inductive res (A : Type) :=
| Return (a : A)
| Raise (e : exn).

Arguments Return {A} a.
Arguments Raise {A} e.

Definition bind {A B} (m : res A) (k : A -> res B) : res B :=
  match m with
  | Return a => k a
  | Raise e => Raise e
  end.

Notation "x <- m ;; k" := (bind m (fun x => k))
  (at level 61, m at next level, right associativity).

(* ------------------------------------------------------------------ *)
(** ** Built-ins on values *)

(** [str(index)] for the index [enumerate] produces. *)
Definition str_of_index (index : nat) : string :=
  NilEmpty.string_of_uint (Nat.to_uint index).

(** [len(json)]: defined on [str], [list], [tuple] and [dict]; a
    [TypeError] on an object without [__len__]. *)
Definition py_len (json : value) : res Z :=
  match json with
  | VStr s => Return (Z.of_nat (String.length s))
  | VList l | VTuple l => Return (Z.of_nat (List.length l))
  | VDict d => Return (Z.of_nat (List.length d))
  | _ => Raise (ExTypeError "object has no len()")
  end.

(** [isinstance(json, Iterable)] *)
Definition is_iterable (json : value) : bool :=
  match json with
  | VStr _ | VList _ | VTuple _ | VDict _ => true
  | _ => false
  end.

(** The elements [iter(json)] yields: the characters of a [str] as
    one-character strings (a [string] here is a list of characters), the
    items of a [list] or [tuple], the keys of a [dict]. *)
Definition py_iter (json : value) : res (list value) :=
  match json with
  | VStr s => Return (map (fun c => VStr (String c EmptyString)) (list_ascii_of_string s))
  | VList l | VTuple l => Return l
  | VDict d => Return (map fst d)
  | _ => Raise (ExTypeError "object is not iterable")
  end.

Definition is_str_key (p : string) (k : value) : bool :=
  match k with
  | VStr s => String.eqb s p
  | _ => false
  end.

(** [p in json] for a [str] [p] and a dict [json]: a [str] equals only
    a [str]. *)
Definition dict_contains (p : string) (d : list (value * value)) : bool :=
  existsb (fun kv => is_str_key p (fst kv)) d.

(** [json.get(key)] for a [str] key. *)
Definition dict_get (key : string) (d : list (value * value)) : value :=
  match find (fun kv => is_str_key key (fst kv)) d with
  | Some kv => snd kv
  | None => VNone
  end.

(** [float(json)] for an [int]: round to nearest even in binary64, an
    [OverflowError] when the integer is too large. *)
Definition float_of_int (z : Z) : res SpecFloat.spec_float :=
  match SpecFloat.binary_normalize 53 1024 z 0 false with
  | SpecFloat.S754_infinity _ => Raise ExOverflowError
  | f => Return f
  end.

(** The store [d[k] = v] on the entries of a dict, given the test [same]
    for a key equal to [k]: the value of that key is replaced in place, and
    a new key goes to the end. *)
Fixpoint dict_store (same : value -> bool) (k v : value) (d : list (value * value))
    : list (value * value) :=
  match d with
  | [] => [(k, v)]
  | (k', v') :: rest =>
      if same k' then (k', v) :: rest
      else (k', v') :: dict_store same k v rest
  end.

(** The built-ins whose behaviour on an arbitrary object is decided
    outside the engine: [str(x)] and the store [d[k] = v] of a dict, which
    hashes [k] and compares it with the keys already present.  On text
    both are fixed: [str] of a [str] is the string itself, and a [str] key
    is hashable and equal to the same [str] only. *)
Class PyBuiltins := {
  py_str : value -> string;
  dict_setitem : list (value * value) -> value -> value -> res (list (value * value));
  py_str_str : forall s, py_str (VStr s) = s;
  dict_setitem_str : forall d s v,
    dict_setitem d (VStr s) v = Return (dict_store (is_str_key s) (VStr s) v d)
}.

(* ------------------------------------------------------------------ *)
(** ** The error model *)

(** [Path = Tuple[str, ...]] *)
Definition Path := list string.

Definition Path_eqb (p q : Path) : bool :=
  if list_eq_dec string_dec p q then true else false.

(** The [TypeError] a record constructor raised.  [BaseException] defines
    no [__eq__], so [==] on two of them is object identity: [te_ident]
    stands for the identity of the exception object. *)
Record TypeError := mkTypeError { te_ident : N; te_message : string }.

Definition TypeError_eq (a b : TypeError) : bool :=
  N.eqb (te_ident a) (te_ident b).

(** [FailureReason = Union[TypeMismatch, UnsupportedDecoding,
    InitializationError]] *)
Inductive FailureReason :=
| TypeMismatch (path : Path)
| UnsupportedDecoding (path : Path)
| InitializationError (path : Path) (underlying : TypeError).

Record DecodingError := mkDecodingError { reason : FailureReason }.

(** What the argument [x: Any] of an [__eq__] can be. *)
Inductive object :=
| ObjReason (r : FailureReason)
| ObjError (e : DecodingError)
| ObjValue (v : value).

Definition TypeMismatch_eq (self_path : Path) (x : object) : bool :=
  match x with
  | ObjReason (TypeMismatch x_path) => Path_eqb self_path x_path
  | _ => false
  end.

Definition UnsupportedDecoding_eq (self_path : Path) (x : object) : bool :=
  match x with
  | ObjReason (UnsupportedDecoding x_path) => Path_eqb self_path x_path
  | _ => false
  end.

Definition InitializationError_eq (self_path : Path) (self_underlying : TypeError)
    (x : object) : bool :=
  match x with
  | ObjReason (InitializationError x_path x_underlying) =>
      TypeError_eq self_underlying x_underlying && Path_eqb self_path x_path
  | _ => false
  end.

(** [self == x] for a failure reason [self]: the [__eq__] of its class. *)
Definition FailureReason_eq (self : FailureReason) (x : object) : bool :=
  match self with
  | TypeMismatch p => TypeMismatch_eq p x
  | UnsupportedDecoding p => UnsupportedDecoding_eq p x
  | InitializationError p u => InitializationError_eq p u x
  end.

Definition DecodingError_eq (self : DecodingError) (x : object) : bool :=
  match x with
  | ObjError x_err => FailureReason_eq (reason self) (ObjReason (reason x_err))
  | _ => false
  end.

(** [Union[Decoded, DecodingError]], the return type of every strategy. *)
Inductive outcome :=
| Decoded (v : value)
| Failed (e : DecodingError).

Definition Error (r : FailureReason) : outcome := Failed (mkDecodingError r).

(** [isinstance(r, UnsupportedDecoding)] *)
Definition is_UnsupportedDecoding (r : FailureReason) : bool :=
  match r with
  | UnsupportedDecoding _ => true
  | _ => false
  end.

(* ------------------------------------------------------------------ *)
(** ** Type descriptors *)

(** What calling a record class with keyword arguments does: it returns
    the instance, or raises a [TypeError] (the one exception
    [decode_as_class] catches), or raises something else. *)
Inductive init_result :=
| Constructed (v : value)
| InitTypeError (e : TypeError)
| InitRaises (e : exn).

(** The [type_] argument of [decode].  [TEllipsis] is the variadic marker
    [...] of a tuple, [TTypeVar] an unbound generic parameter, [TNewType] a
    scalar with a wire supertype and the callable that builds it, [TClass]
    a record class with its field hints and its constructor, [TOther] any
    class the engine has no strategy for. *)
Inductive ty :=
| TStr | TInt | TBool | TNoneType | TDate | TDatetime
| TFloat
| TAny
| TEllipsis
| TTypeVar (name : string)
| TUnion (args : list ty)
| TTuple (args : list ty)
| TList (args : list ty)
| TDict (args : list ty)
| TNewType (name : string) (supertype : pyclass) (make : value -> res value)
| TClass (name : string) (hints : list (string * ty))
         (init : list (string * value) -> init_result)
| TOther (name : string).

Inductive origin := OUnion | OTuple | OList | ODict.

(** Modelled from the spec: [typedjson.annotation.origin_of], which is not
    among the sources.  The structural category of a descriptor, or none
    for a plain scalar, a record or the wildcard. *)
Definition origin_of (type_ : ty) : option origin :=
  match type_ with
  | TUnion _ => Some OUnion
  | TTuple _ => Some OTuple
  | TList _ => Some OList
  | TDict _ => Some ODict
  | _ => None
  end.

(** Modelled from the spec: [typedjson.annotation.args_of], which is not
    among the sources.  The element types of a container, the alternatives
    of a sum type, the element list of a fixed-arity sequence. *)
Definition args_of (type_ : ty) : list ty :=
  match type_ with
  | TUnion args | TTuple args | TList args | TDict args => args
  | _ => []
  end.

(** Modelled from the spec: [typedjson.annotation.hints_of], which is not
    among the sources.  The ordered field hints of a record shape, none for
    any other descriptor. *)
Definition hints_of (type_ : ty) : option (list (string * ty)) :=
  match type_ with
  | TClass _ hints _ => Some hints
  | _ => None
  end.

(** Modelled from the spec: [typedjson.annotation.supertype_of], which is
    not among the sources.  The declared wire supertype of a non-primitive
    scalar. *)
Definition supertype_of (type_ : ty) : option pyclass :=
  match type_ with
  | TNewType _ supertype _ => Some supertype
  | _ => None
  end.

(** [type_ == float] *)
Definition is_float (type_ : ty) : bool :=
  match type_ with TFloat => true | _ => false end.

(** [type_ == Any] *)
Definition is_Any (type_ : ty) : bool :=
  match type_ with TAny => true | _ => false end.

(** [type_ is ...] *)
Definition is_ellipsis (type_ : ty) : bool :=
  match type_ with TEllipsis => true | _ => false end.

(** [type_.__class__ is TypeVar] *)
Definition is_TypeVar (type_ : ty) : bool :=
  match type_ with TTypeVar _ => true | _ => false end.

(** The class a member of [primitives = (str, int, bool, type(None), date,
    datetime)] denotes; none when [type_] is not in the tuple. *)
Definition primitive_class (type_ : ty) : option pyclass :=
  match type_ with
  | TStr => Some CStr
  | TInt => Some CInt
  | TBool => Some CBool
  | TNoneType => Some CNoneType
  | TDate => Some CDate
  | TDatetime => Some CDatetime
  | _ => None
  end.

(** [type_(json)], the call of a scalar descriptor on the wire value. *)
Definition call_scalar (type_ : ty) (json : value) : res value :=
  match type_ with
  | TNewType _ _ make => make json
  | _ => Raise (ExTypeError "object is not callable")
  end.

(** The keyword call of a record class [type_] on the dict [parameters]. *)
Definition call_class (type_ : ty) (parameters : list (string * value)) : init_result :=
  match type_ with
  | TClass _ _ init => init parameters
  | _ => InitRaises (ExTypeError "object is not callable")
  end.

(* ------------------------------------------------------------------ *)
(** ** The decoding strategies *)

Definition decoder := ty -> value -> Path -> res outcome.

(** [float(json)] where [type(json)] is [float] or [int]. *)
Definition py_float (json : value) : res value :=
  match json with
  | VFloat f => Return (VFloat f)
  | VInt z => f <- float_of_int z ;; Return (VFloat f)
  | _ => Raise (ExTypeError "float() argument must be a number")
  end.

Definition decode_as_primitive (type_ : ty) (json : value) (path : Path) : res outcome :=
  let supertype := supertype_of type_ in
  if is_float type_ then
    match type_of json with
    | CFloat | CInt => v <- py_float json ;; Return (Decoded v)
    | _ => Return (Error (TypeMismatch path))
    end
  else
    match primitive_class type_ with
    | Some cls =>
        if pyclass_eqb (type_of json) cls then Return (Decoded json)
        else Return (Error (TypeMismatch path))
    | None =>
        match supertype with
        | Some supertype =>
            if isinstance json supertype
            then v <- call_scalar type_ json ;; Return (Decoded v)
            else Return (Error (TypeMismatch path))
        | None => Return (Error (UnsupportedDecoding path))
        end
    end.

Definition decode_as_any (type_ : ty) (json : value) (path : Path) : res outcome :=
  if is_Any type_ then Return (Decoded json)
  else Return (Error (UnsupportedDecoding path)).

(** The generator [_iter_args]: it walks [args] remembering [last], and
    once it meets the marker [...] it yields [last] for ever. *)
Inductive iter_args_state :=
| Walking (args : list ty) (last : option ty)
| Repeating (last : ty).

(** One [next()] on the generator: [None] is [StopIteration]; the bare
    [raise] with no exception being handled is a [RuntimeError]. *)
Definition iter_args_next (g : iter_args_state) : res (option (ty * iter_args_state)) :=
  match g with
  | Repeating last => Return (Some (last, Repeating last))
  | Walking [] _ => Return None
  | Walking (type_ :: rest) last =>
      if is_ellipsis type_ then
        match last with
        | None => Raise ExRuntimeError
        | Some last => Return (Some (last, Repeating last))
        end
      else Return (Some (type_, Walking rest (Some type_)))
  end.

Definition _iter_args (args : list ty) : iter_args_state := Walking args None.

(** [args[-1]] raises [IndexError] on the empty tuple. *)
Definition _required_length (args : list ty) : res Z :=
  match rev args with
  | [] => Raise ExIndexError
  | last :: _ =>
      if is_ellipsis last then Return (Z.of_nat (List.length args) - 2)%Z
      else Return (Z.of_nat (List.length args))
  end.

Section Strategies.

Context {builtins : PyBuiltins}.

(** The recursive call: the strategies call the dispatcher on the parts
    of the descriptor and of the value. *)
Variable decode : decoder.

(** The second loop of [decode_as_union]; [decoded] is unbound until
    the first alternative has been tried. *)
Fixpoint union_loop (args : list ty) (json : value) (path : Path)
    (decoded : option outcome) : res outcome :=
  match args with
  | [] =>
      match decoded with
      | Some decoded => Return decoded
      | None => Raise ExUnboundLocalError
      end
  | type_ :: rest =>
      decoded <- decode type_ json path ;;
      match decoded with
      | Decoded _ => Return decoded
      | Failed _ => union_loop rest json path (Some decoded)
      end
  end.

Definition decode_as_union (type_ : ty) (json : value) (path : Path) : res outcome :=
  match origin_of type_ with
  | Some OUnion =>
      let args := args_of type_ in
      if existsb is_TypeVar args then Return (Error (UnsupportedDecoding path))
      else union_loop args json path None
  | _ => Return (Error (UnsupportedDecoding path))
  end.

(** The loop over [enumerate(zip(_iter_args(args), json))]: [zip] asks
    the generator first and the input second, and stops at the first of
    the two that is exhausted. *)
Fixpoint tuple_loop (g : iter_args_state) (elements : list value) (path : Path)
    (index : nat) (list_decoded : list value) : res outcome :=
  next <- iter_args_next g ;;
  match next with
  | None => Return (Decoded (VTuple list_decoded))
  | Some (type_, g') =>
      match elements with
      | [] => Return (Decoded (VTuple list_decoded))
      | element :: rest =>
          decoded <- decode type_ element (path ++ [str_of_index index]) ;;
          match decoded with
          | Failed e => Return (Failed e)
          | Decoded v => tuple_loop g' rest path (S index) (list_decoded ++ [v])
          end
      end
  end.

Definition decode_as_tuple (type_ : ty) (json : value) (path : Path) : res outcome :=
  match origin_of type_ with
  | Some OTuple =>
      match json with
      | VNone => Return (Error (TypeMismatch path))
      | _ =>
          length <- py_len json ;;
          required <- _required_length (args_of type_) ;;
          if (required >? length)%Z then Return (Error (TypeMismatch path))
          else
            elements <- py_iter json ;;
            tuple_loop (_iter_args (args_of type_)) elements path 0 []
      end
  | _ => Return (Error (UnsupportedDecoding path))
  end.

Fixpoint list_loop (Element : ty) (elements : list value) (path : Path)
    (index : nat) (list_decoded : list value) : res outcome :=
  match elements with
  | [] => Return (Decoded (VList list_decoded))
  | element :: rest =>
      decoded <- decode Element element (path ++ [str_of_index index]) ;;
      match decoded with
      | Failed e => Return (Failed e)
      | Decoded v => list_loop Element rest path (S index) (list_decoded ++ [v])
      end
  end.

Definition decode_as_list (type_ : ty) (json : value) (path : Path) : res outcome :=
  match origin_of type_ with
  | Some OList =>
      match args_of type_ with
      | [] => Raise ExIndexError
      | Element :: _ =>
          if negb (is_iterable json) then Return (Error (TypeMismatch path))
          else
            elements <- py_iter json ;;
            list_loop Element elements path 0 []
      end
  | _ => Return (Error (UnsupportedDecoding path))
  end.

Fixpoint dict_loop (KeyElement ValueElement : ty) (items : list (value * value))
    (path : Path) (dict_decoded : list (value * value)) : res outcome :=
  match items with
  | [] => Return (Decoded (VDict dict_decoded))
  | (key, element) :: rest =>
      decoded_value <- decode ValueElement element (path ++ [py_str key]) ;;
      match decoded_value with
      | Failed e => Return (Failed e)
      | Decoded decoded_value =>
          decoded_key <- decode KeyElement key (path ++ [py_str key]) ;;
          match decoded_key with
          | Failed e => Return (Failed e)
          | Decoded decoded_key =>
              dict_decoded <- dict_setitem dict_decoded decoded_key decoded_value ;;
              dict_loop KeyElement ValueElement rest path dict_decoded
          end
      end
  end.

(** [KeyElement, ValueElement = args_of(type_)] is a [ValueError] unless
    there are exactly two arguments. *)
Definition decode_as_dict (type_ : ty) (json : value) (path : Path) : res outcome :=
  match json, origin_of type_ with
  | VDict items, Some ODict =>
      match args_of type_ with
      | [KeyElement; ValueElement] => dict_loop KeyElement ValueElement items path []
      | _ => Raise ExValueError
      end
  | _, _ => Return (Error (UnsupportedDecoding path))
  end.

(** The inner function [_decode] of [decode_as_class]. *)
Definition _decode (json : list (value * value)) (path : Path)
    (annotation : string * ty) : res outcome :=
  let (key, type_) := annotation in
  let value := dict_get key json in
  decode type_ value (path ++ [key]).

(** The dict comprehension [{p: _decode((p, a)) for p, a in
    annotations.items() if p in json}]: every present field is decoded
    before any result is looked at. *)
Fixpoint class_parameters (json : list (value * value)) (path : Path)
    (annotations : list (string * ty)) : res (list (string * outcome)) :=
  match annotations with
  | [] => Return []
  | (p, a) :: rest =>
      if dict_contains p json then
        parameter <- _decode json path (p, a) ;;
        parameters <- class_parameters json path rest ;;
        Return ((p, parameter) :: parameters)
      else class_parameters json path rest
  end.

(** The first [DecodingError] among [parameters.values()]. *)
Fixpoint first_error (parameters : list (string * outcome)) : option DecodingError :=
  match parameters with
  | [] => None
  | (_, Failed e) :: _ => Some e
  | (_, Decoded _) :: rest => first_error rest
  end.

(** The keyword arguments, once no parameter is an error. *)
Fixpoint keywords (parameters : list (string * outcome)) : list (string * value) :=
  match parameters with
  | [] => []
  | (p, Decoded v) :: rest => (p, v) :: keywords rest
  | (_, Failed _) :: rest => keywords rest
  end.

Definition decode_as_class (type_ : ty) (json : value) (path : Path) : res outcome :=
  let annotations := hints_of type_ in
  match json, annotations with
  | VDict items, Some annotations =>
      parameters <- class_parameters items path annotations ;;
      match first_error parameters with
      | Some parameter => Return (Failed parameter)
      | None =>
          match call_class type_ (keywords parameters) with
          | Constructed v => Return (Decoded v)
          | InitTypeError e => Return (Error (InitializationError path e))
          | InitRaises e => Raise e
          end
      end
  | _, _ => Return (Error (UnsupportedDecoding path))
  end.

(* ------------------------------------------------------------------ *)
(** ** The dispatcher *)

Definition decoders : list decoder :=
  [ decode_as_union;
    decode_as_tuple;
    decode_as_list;
    decode_as_primitive;
    decode_as_class;
    decode_as_dict;
    decode_as_any ].

(** The [for d in decoders] loop of [decode], with [result_final] as its
    state. *)
Fixpoint decode_loop (ds : list decoder) (result_final : outcome)
    (type_ : ty) (json : value) (path : Path) : res outcome :=
  match ds with
  | [] => Return result_final
  | d :: rest =>
      result <- d type_ json path ;;
      match result with
      | Failed e =>
          if negb (is_UnsupportedDecoding (reason e))
          then decode_loop rest result type_ json path
          else decode_loop rest result_final type_ json path
      | Decoded _ => Return result
      end
  end.

(** The body of [decode], over the recursive call [decode]. *)
Definition decode_body (type_ : ty) (json : value) (path : Path) : res outcome :=
  decode_loop decoders (Error (UnsupportedDecoding path)) type_ json path.

End Strategies.

(* ------------------------------------------------------------------ *)
(** ** Tying the knot *)

(** The descriptors a strategy hands to the recursive call. *)
Definition children (type_ : ty) : list ty :=
  match type_ with
  | TClass _ hints _ => map snd hints
  | _ => args_of type_
  end.

Fixpoint ty_depth (type_ : ty) : nat :=
  match type_ with
  | TUnion args | TTuple args | TList args | TDict args =>
      S (list_max (map ty_depth args))
  | TClass _ hints _ => S (list_max (map (fun h => ty_depth (snd h)) hints))
  | _ => 0
  end.

(** [decode] with room for [depth] nested calls of itself: past that the
    interpreter raises [RecursionError]. *)
Fixpoint decode_within {builtins : PyBuiltins} (depth : nat) : decoder :=
  match depth with
  | O => fun _ _ _ => Raise ExRecursionError
  | S depth => decode_body (decode_within depth)
  end.

(** [decode(type_, json, path)].  A descriptor is a finite tree and every
    recursive call is on one of its [children], so the nesting of calls is
    bounded by [ty_depth]; [decode_unfold] below shows the bound is never
    reached. *)
Definition decode {builtins : PyBuiltins} (type_ : ty) (json : value) (path : Path)
    : res outcome :=
  decode_within (S (ty_depth type_)) type_ json path.

Arguments decode {builtins} type_ json path : simpl never.


(* ------------------------------------------------------------------ *)
(** ** Notions the statements below are written with *)

(** Two recursive calls that do the same on a descriptor. *)
Definition agree (rec1 rec2 : decoder) (type_ : ty) : Prop :=
  forall json path, rec1 type_ json path = rec2 type_ json path.

(** The descriptors the generator can still yield. *)
Definition state_types (g : iter_args_state) : list ty :=
  match g with
  | Walking args None => args
  | Walking args (Some last) => last :: args
  | Repeating last => [last]
  end.

(** The required minimum length of a fixed-arity sequence in the words of
    the specification: the count of element descriptors minus 2 when the
    list ends in the variadic marker, else the full count. *)
Definition required_minimum (args : list ty) : Z :=
  if is_ellipsis (last args TAny) then (Z.of_nat (List.length args) - 2)%Z
  else Z.of_nat (List.length args).

Definition no_ellipsis (args : list ty) : bool :=
  forallb (fun a => negb (is_ellipsis a)) args.

(** The first [n] descriptors the generator yields, fewer when it is
    exhausted before. *)
Fixpoint iter_args_take (n : nat) (g : iter_args_state) : res (list ty) :=
  match n with
  | O => Return []
  | S n =>
      next <- iter_args_next g ;;
      match next with
      | None => Return []
      | Some (type_, g') =>
          types <- iter_args_take n g' ;;
          Return (type_ :: types)
      end
  end.

(** Position by position from [index] on, [types] decode [elements] to
    [vs], each at the path extended by its index. *)
Fixpoint decodes_each (rec : decoder) (path : Path) (index : nat)
    (types : list ty) (elements vs : list value) : Prop :=
  match types, elements, vs with
  | [], [], [] => True
  | type_ :: types, element :: elements, v :: vs =>
      rec type_ element (path ++ [str_of_index index]) = Return (Decoded v)
      /\ decodes_each rec path (S index) types elements vs
  | _, _, _ => False
  end.

(** The hinted fields whose names are keys of the input. *)
Definition present_hints (items : list (value * value))
    (annotations : list (string * ty)) : list (string * ty) :=
  filter (fun h => dict_contains (fst h) items) annotations.

(** Each field of [annotations] decodes, at the path extended by its name,
    the value the input has under that name, and [kw] are the keyword
    arguments this gives. *)
Fixpoint fields_decode (rec : decoder) (items : list (value * value)) (path : Path)
    (annotations : list (string * ty)) (kw : list (string * value)) : Prop :=
  match annotations, kw with
  | [], [] => True
  | (p, a) :: annotations, (q, v) :: kw =>
      q = p
      /\ rec a (dict_get p items) (path ++ [p]) = Return (Decoded v)
      /\ fields_decode rec items path annotations kw
  | _, _ => False
  end.

(** What [decode_as_class] makes of the outcome of the constructor. *)
Definition construction (path : Path) (r : init_result) : res outcome :=
  match r with
  | Constructed v => Return (Decoded v)
  | InitTypeError e => Return (Error (InitializationError path e))
  | InitRaises e => Raise e
  end.

(** Every entry of [items] decodes, value and key at the path extended by
    the text form of the entry's key, and [pairs] are the decoded keys with
    the decoded values. *)
Fixpoint items_decode {builtins : PyBuiltins} (rec : decoder) (K V : ty) (path : Path)
    (items pairs : list (value * value)) : Prop :=
  match items, pairs with
  | [], [] => True
  | (key, element) :: items, (k, v) :: pairs =>
      rec V element (path ++ [py_str key]) = Return (Decoded v)
      /\ rec K key (path ++ [py_str key]) = Return (Decoded k)
      /\ items_decode rec K V path items pairs
  | _, _ => False
  end.

(** The stores [d[k] = v] for the [pairs] in order. *)
Fixpoint insert_all {builtins : PyBuiltins} (dict_decoded : list (value * value))
    (pairs : list (value * value)) : res (list (value * value)) :=
  match pairs with
  | [] => Return dict_decoded
  | (k, v) :: rest =>
      dict_decoded <- dict_setitem dict_decoded k v ;;
      insert_all dict_decoded rest
  end.

(** The [parameters] of [decode_as_class] when every field decoded. *)
Definition as_parameters (kw : list (string * value)) : list (string * outcome) :=
  map (fun pv => (fst pv, Decoded (snd pv))) kw.

(** The kind of a failure reason, its path and what it carries. *)
Inductive reason_kind := KTypeMismatch | KUnsupportedDecoding | KInitializationError.

Definition kind_of (r : FailureReason) : reason_kind :=
  match r with
  | TypeMismatch _ => KTypeMismatch
  | UnsupportedDecoding _ => KUnsupportedDecoding
  | InitializationError _ _ => KInitializationError
  end.

Definition path_of (r : FailureReason) : Path :=
  match r with
  | TypeMismatch p | UnsupportedDecoding p | InitializationError p _ => p
  end.

(** The underlying error an [InitializationError] carries. *)
Definition underlying_of (r : FailureReason) : option TypeError :=
  match r with
  | InitializationError _ u => Some u
  | _ => None
  end.

(* ------------------------------------------------------------------ *)
(** ** An instance of the built-ins and two record classes *)

(** The built-ins on the keys a generic tree has, which are text.  The
    examples run on this instance; none of them takes the text form of, or
    stores, a key that is not text. *)
Definition tree_str (v : value) : string :=
  match v with
  | VStr s => s
  | _ => "<object>"
  end.

Definition tree_setitem (d : list (value * value)) (k v : value)
    : res (list (value * value)) :=
  match k with
  | VStr s => Return (dict_store (is_str_key s) k v d)
  | _ => Raise (ExTypeError "unhashable type")
  end.

#[export] Instance tree_builtins : PyBuiltins :=
  {| py_str := tree_str;
     dict_setitem := tree_setitem;
     py_str_str := fun s => eq_refl;
     dict_setitem_str := fun d s v => eq_refl |}.

Fixpoint kw_get (name : string) (kw : list (string * value)) : option value :=
  match kw with
  | [] => None
  | (p, v) :: rest => if String.eqb p name then Some v else kw_get name rest
  end.

(** A record [Person(name: str, age: Optional[int] = None)]. *)
Definition Person_init (kw : list (string * value)) : init_result :=
  match kw_get "name" kw with
  | None => InitTypeError (mkTypeError 1 "missing required argument: 'name'")
  | Some name =>
      let age := match kw_get "age" kw with Some age => age | None => VNone end in
      Constructed (VObj "Person" [("name", name); ("age", age)])
  end.

Definition Person : ty :=
  TClass "Person" [("name", TStr); ("age", TUnion [TInt; TNoneType])] Person_init.

(** The same record with [age] required. *)
Definition StrictPerson_init (kw : list (string * value)) : init_result :=
  match kw_get "name" kw, kw_get "age" kw with
  | Some name, Some age => Constructed (VObj "StrictPerson" [("name", name); ("age", age)])
  | None, _ => InitTypeError (mkTypeError 1 "missing required argument: 'name'")
  | _, None => InitTypeError (mkTypeError 2 "missing required argument: 'age'")
  end.

Definition StrictPerson : ty :=
  TClass "StrictPerson" [("name", TStr); ("age", TUnion [TInt; TNoneType])]
         StrictPerson_init.

(** The best result after one strategy has answered and every other one
    has reported [UnsupportedDecoding]. *)
Definition settle (path : Path) (result : outcome) : outcome :=
  match result with
  | Decoded v => Decoded v
  | Failed e =>
      if is_UnsupportedDecoding (reason e) then Error (UnsupportedDecoding path)
      else Failed e
  end.

(* ------------------------------------------------------------------ *)
(** ** Decoding again what was decoded *)

(** Modelled from the spec: the representation of a decoded value in the
    generic tree (null, boolean, number, string, ordered sequence,
    string-keyed mapping), for which the sources have no function, the
    engine having no encode direction.  A fixed-arity sequence is
    represented by the sequence of its elements and a record by the mapping
    of its field names to its fields; a sequence and a mapping keep their
    shape; a scalar is its own representation. *)
Fixpoint to_tree (v : value) : value :=
  match v with
  | VList l => VList (map to_tree l)
  | VTuple l => VList (map to_tree l)
  | VDict d => VDict (map (fun kv => (fst kv, to_tree (snd kv))) d)
  | VObj _ fields => VDict (map (fun f => (VStr (fst f), to_tree (snd f))) fields)
  | _ => v
  end.

(** The keys are text and pairwise distinct. *)
Fixpoint text_keys (d : list (value * value)) : bool :=
  match d with
  | [] => true
  | (VStr s, _) :: rest => negb (dict_contains s rest) && text_keys rest
  | _ => false
  end.

(** Modelled from the spec: the input values, which are the nodes of a
    generic tree: null, boolean, number, string, ordered sequence,
    string-keyed mapping. *)
Fixpoint is_tree (v : value) : bool :=
  match v with
  | VNone | VBool _ | VInt _ | VFloat _ | VStr _ => true
  | VList l => forallb is_tree l
  | VDict d => text_keys d && forallb (fun kv => is_tree (snd kv)) d
  | _ => false
  end.

(** A key descriptor that leaves a text key as it is. *)
Definition text_key_type (K : ty) : Prop := K = TStr \/ K = TAny.


(** The alternatives [args] of a sum type are consistent with their order:
    whenever the alternatives before one refuse a generic tree that this
    one decodes to [R], each of them refuses the representation of [R] as
    well, or decodes it to [R]. *)
Definition sum_consistent {builtins : PyBuiltins} (args : list ty) : Prop :=
  forall pre a post json path R path',
    args = pre ++ a :: post ->
    is_tree json = true ->
    Forall (fun b => exists e, decode b json path = Return (Failed e)) pre ->
    decode a json path = Return (Decoded R) ->
    Forall (fun b => (exists e, decode b (to_tree R) path' = Return (Failed e))
                     \/ decode b (to_tree R) path' = Return (Decoded R)) pre.








(* ------------------------------------------------------------------ *)
(** ** Moving a decoding to another path *)

(** Two failure reasons of the same kind whose paths are [p] and [p']
    followed by the same segments, with the same underlying error. *)
Definition reason_shift (p p' : Path) (r r' : FailureReason) : Prop :=
  match r, r' with
  | TypeMismatch q, TypeMismatch q' => exists s, q = p ++ s /\ q' = p' ++ s
  | UnsupportedDecoding q, UnsupportedDecoding q' => exists s, q = p ++ s /\ q' = p' ++ s
  | InitializationError q u, InitializationError q' u' =>
      u = u' /\ exists s, q = p ++ s /\ q' = p' ++ s
  | _, _ => False
  end.

(** Two results of a call at the paths [p] and [p'] that differ in the
    paths of the errors only. *)
Definition shifted (p p' : Path) (o o' : res outcome) : Prop :=
  match o, o' with
  | Return (Decoded v), Return (Decoded v') => v = v'
  | Return (Failed e), Return (Failed e') => reason_shift p p' (reason e) (reason e')
  | Raise x, Raise x' => x = x'
  | _, _ => False
  end.

(** A recursive call whose results at two paths differ in the paths of the
    errors only. *)
Definition path_blind (rec : decoder) : Prop :=
  forall type_ json p p', shifted p p' (rec type_ json p) (rec type_ json p').

(** The decoding of the fields [hs] of a record one after the other, each
    at the path extended by its name: what the dict comprehension of
    [decode_as_class] does on the hinted fields that are present. *)
Fixpoint decode_fields (rec : decoder) (items : list (value * value)) (path : Path)
    (hs : list (string * ty)) : res (list (string * outcome)) :=
  match hs with
  | [] => Return []
  | (p, a) :: rest =>
      parameter <- rec a (dict_get p items) (path ++ [p]) ;;
      parameters <- decode_fields rec items path rest ;;
      Return ((p, parameter) :: parameters)
  end.

(* ================================================================== *)
(** * Properties *)

(* ------------------------------------------------------------------ *)
(** ** The recursion equation of [decode] *)

Lemma bind_Return {A B} (a : A) (k : A -> res B) : bind (Return a) k = k a.
Proof. reflexivity. Qed.

Lemma list_max_In (f : ty -> nat) (l : list ty) (x : ty) :
  In x l -> f x <= list_max (map f l).
Proof.
  induction l as [|y l IH]; simpl; intros Hin; [contradiction|].
  destruct Hin as [->|Hin]; [lia|]. specialize (IH Hin). lia.
Qed.

Lemma children_depth (type_ child : ty) :
  In child (children type_) -> ty_depth child < ty_depth type_.
Proof.
  destruct type_; simpl; try contradiction; intros Hin;
    try (apply (list_max_In ty_depth) in Hin; lia).
  rewrite <- (map_map snd ty_depth).
  apply (list_max_In ty_depth) in Hin. lia.
Qed.

Section Agreement.

Context {builtins : PyBuiltins}.
Variables rec1 rec2 : decoder.

Local Abbreviation agree := (agree rec1 rec2).

Lemma union_loop_agree args json path decoded :
  Forall agree args ->
  union_loop rec1 args json path decoded = union_loop rec2 args json path decoded.
Proof.
  intros H; revert decoded.
  induction H as [|a args Ha _ IH]; intros decoded; simpl; [reflexivity|].
  rewrite Ha. destruct (rec2 a json path) as [[v|e]|e]; simpl; auto.
Qed.

Lemma iter_args_next_types g type_ g' :
  iter_args_next g = Return (Some (type_, g')) ->
  In type_ (state_types g) /\ incl (state_types g') (state_types g).
Proof.
  destruct g as [[|a args] last|last]; simpl.
  - discriminate.
  - destruct (is_ellipsis a).
    + destruct last as [last|]; [|discriminate].
      intros [= <- <-]. simpl. split; [now left|].
      intros x [<-|[]]. now left.
    + intros [= <- <-]. destruct last as [last|]; simpl.
      * split; [right; now left|]. intros x [<-|Hx]; right; [now left|now right].
      * split; [now left|]. intros x Hx. exact Hx.
  - intros [= <- <-]. simpl. split; [now left|]. intros x Hx. exact Hx.
Qed.

Lemma tuple_loop_agree elements : forall g path index list_decoded,
  Forall agree (state_types g) ->
  tuple_loop rec1 g elements path index list_decoded
  = tuple_loop rec2 g elements path index list_decoded.
Proof.
  induction elements as [|element rest IH]; intros g path index acc Hg.
  - destruct g; reflexivity.
  - cbn [tuple_loop].
    destruct (iter_args_next g) as [[[type_ g']|]|e] eqn:Hnext; simpl; auto.
    apply iter_args_next_types in Hnext. destruct Hnext as [Hin Hincl].
    rewrite Forall_forall in Hg. rewrite (Hg _ Hin).
    destruct (rec2 type_ element _) as [[v|err]|err]; simpl; auto.
    apply IH. rewrite Forall_forall. intros x Hx. apply Hg, Hincl, Hx.
Qed.

Lemma list_loop_agree Element elements : forall path index list_decoded,
  agree Element ->
  list_loop rec1 Element elements path index list_decoded
  = list_loop rec2 Element elements path index list_decoded.
Proof.
  induction elements as [|element rest IH]; intros path index acc HE; simpl;
    [reflexivity|].
  rewrite HE. destruct (rec2 Element element _) as [[v|err]|err]; simpl; auto.
Qed.

Lemma dict_loop_agree K V items : forall path dict_decoded,
  agree K -> agree V ->
  dict_loop rec1 K V items path dict_decoded
  = dict_loop rec2 K V items path dict_decoded.
Proof.
  induction items as [|[key element] rest IH]; intros path acc HK HV; simpl;
    [reflexivity|].
  rewrite HV. destruct (rec2 V element _) as [[v|err]|err]; simpl; auto.
  rewrite HK. destruct (rec2 K key _) as [[k|err]|err]; simpl; auto.
  destruct (dict_setitem acc k v); simpl; auto.
Qed.

Lemma class_parameters_agree json path annotations :
  Forall agree (map snd annotations) ->
  class_parameters rec1 json path annotations
  = class_parameters rec2 json path annotations.
Proof.
  induction annotations as [|[p a] rest IH]; simpl; intros H; [reflexivity|].
  inversion H as [|? ? Ha Hrest]; subst.
  rewrite (IH Hrest). destruct (dict_contains p json); [|reflexivity].
  unfold _decode. rewrite Ha. reflexivity.
Qed.

Lemma decode_body_agree type_ json path :
  Forall agree (children type_) ->
  decode_body rec1 type_ json path = decode_body rec2 type_ json path.
Proof.
  intros H. unfold decode_body, decoders. cbn [decode_loop].
  assert (Hu : decode_as_union rec1 type_ json path = decode_as_union rec2 type_ json path).
  { unfold decode_as_union. destruct type_; simpl; auto.
    destruct (existsb is_TypeVar args); auto. now apply union_loop_agree. }
  assert (Ht : decode_as_tuple rec1 type_ json path = decode_as_tuple rec2 type_ json path).
  { unfold decode_as_tuple. destruct type_; simpl; auto.
    destruct json; auto;
      (destruct (py_len _); simpl; auto;
       destruct (_required_length args); simpl; auto;
       destruct (_ >? _)%Z; auto;
       apply tuple_loop_agree; exact H). }
  assert (Hl : decode_as_list rec1 type_ json path = decode_as_list rec2 type_ json path).
  { unfold decode_as_list. destruct type_; simpl; auto.
    destruct args as [|Element args]; auto.
    destruct (negb (is_iterable json)); auto.
    destruct (py_iter json); simpl; auto.
    apply list_loop_agree. simpl in H. now inversion H. }
  assert (Hc : decode_as_class rec1 type_ json path = decode_as_class rec2 type_ json path).
  { unfold decode_as_class. destruct json; auto. destruct type_; simpl; auto.
    rewrite (class_parameters_agree d path hints H). reflexivity. }
  assert (Hd : decode_as_dict rec1 type_ json path = decode_as_dict rec2 type_ json path).
  { unfold decode_as_dict. destruct json; auto. destruct type_; simpl; auto.
    destruct args as [|K [|V [|? ?]]]; auto.
    simpl in H. inversion H as [|? ? HK H']; subst. inversion H' as [|? ? HV _]; subst.
    now apply dict_loop_agree. }
  rewrite Hu, Ht, Hl, Hc, Hd. reflexivity.
Qed.

End Agreement.

Lemma decode_within_stable {builtins : PyBuiltins} (n : nat) :
  forall m type_ json path,
    ty_depth type_ < n -> ty_depth type_ < m ->
    decode_within n type_ json path = decode_within m type_ json path.
Proof.
  induction n as [|n IH]; intros m type_ json path Hn Hm; [lia|].
  destruct m as [|m]; [lia|]. simpl.
  apply decode_body_agree. rewrite Forall_forall. intros child Hin json' path'.
  apply children_depth in Hin. apply IH; lia.
Qed.

(** [decode] satisfies the equation the source defines it by: it is the
    dispatcher's loop over the seven strategies, each of which calls
    [decode] itself on the parts. *)
Lemma decode_unfold {builtins : PyBuiltins} (type_ : ty) (json : value) (path : Path) :
  decode type_ json path = decode_body decode type_ json path.
Proof.
  unfold decode at 1. simpl.
  apply decode_body_agree. rewrite Forall_forall. intros child Hin json' path'.
  unfold decode. apply children_depth in Hin. apply decode_within_stable; lia.
Qed.

(* ------------------------------------------------------------------ *)
(** ** The dispatcher *)

Lemma decode_loop_failures (ds post : list decoder) (d : decoder)
    (best : outcome) (type_ : ty) (json : value) (path : Path) (v : value) :
  Forall (fun d' => exists e, d' type_ json path = Return (Failed e)) ds ->
  d type_ json path = Return (Decoded v) ->
  decode_loop (ds ++ d :: post) best type_ json path = Return (Decoded v).
Proof.
  intros Hds Hd. revert best.
  induction Hds as [|d' ds [e He] _ IH]; intros best; simpl.
  - rewrite Hd. reflexivity.
  - rewrite He. simpl. destruct (negb _); apply IH.
Qed.

Lemma decode_loop_unsupported (ds : list decoder) (best : outcome)
    (type_ : ty) (json : value) (path : Path) :
  Forall (fun d => exists p, d type_ json path = Return (Error (UnsupportedDecoding p))) ds ->
  decode_loop ds best type_ json path = Return best.
Proof.
  intros Hds. induction Hds as [|d ds [p Hp] _ IH]; simpl; [reflexivity|].
  rewrite Hp. simpl. exact IH.
Qed.

Lemma not_UnsupportedDecoding (r : FailureReason) :
  (forall p, r <> UnsupportedDecoding p) -> is_UnsupportedDecoding r = false.
Proof. destruct r as [p|p|p u]; intros H; try reflexivity. now contradiction (H p). Qed.

Lemma decode_loop_last_definitive (ds1 ds2 : list decoder) (d : decoder)
    (type_ : ty) (json : value) (path : Path) (e : DecodingError) : forall best,
  Forall (fun d' => exists e', d' type_ json path = Return (Failed e')) ds1 ->
  d type_ json path = Return (Failed e) ->
  (forall p, reason e <> UnsupportedDecoding p) ->
  Forall (fun d' => exists p, d' type_ json path = Return (Error (UnsupportedDecoding p)))
         ds2 ->
  decode_loop (ds1 ++ d :: ds2) best type_ json path = Return (Failed e).
Proof.
  intros best H1 Hd He H2. revert best.
  induction H1 as [|d' ds1 [e' He'] _ IH]; intros best; cbn [app decode_loop].
  - rewrite Hd. cbn [bind]. rewrite (not_UnsupportedDecoding He). cbn [negb].
    now apply decode_loop_unsupported.
  - rewrite He'. cbn [bind]. destruct (negb _); apply IH.
Qed.

(** C1.  The dispatcher is the loop over the seven strategies in the order
    sum type, fixed or variadic sequence, homogeneous sequence, scalar,
    record, mapping, wildcard, started with the best result
    [Error (UnsupportedDecoding path)].  In the loop a success is returned
    at once whatever the later strategies are, also after any number of
    failures; a failure whose reason is no [UnsupportedDecoding] becomes
    the best result and the loop goes on; a failure whose reason is an
    [UnsupportedDecoding] leaves the best result as it is; at the end the
    best result is returned.  So a failure that is no
    [UnsupportedDecoding], after which every strategy reports
    [UnsupportedDecoding], is the result whatever the failures before it
    were, and when every strategy reports [UnsupportedDecoding] the
    dispatcher returns [Error (UnsupportedDecoding path)]. *)
Theorem C1_decode_dispatch {builtins : PyBuiltins} (type_ : ty) (json : value) (path : Path) :
  decode type_ json path
  = decode_loop
      [ decode_as_union decode; decode_as_tuple decode; decode_as_list decode;
        decode_as_primitive; decode_as_class decode; decode_as_dict decode;
        decode_as_any ]
      (Error (UnsupportedDecoding path)) type_ json path
  /\ (forall (d : decoder) rest best v,
        d type_ json path = Return (Decoded v) ->
        decode_loop (d :: rest) best type_ json path = Return (Decoded v))
  /\ (forall (ds : list decoder) (d : decoder) rest best v,
        Forall (fun d' => exists e, d' type_ json path = Return (Failed e)) ds ->
        d type_ json path = Return (Decoded v) ->
        decode_loop (ds ++ d :: rest) best type_ json path = Return (Decoded v))
  /\ (forall (d : decoder) rest best e,
        d type_ json path = Return (Failed e) ->
        (forall p, reason e <> UnsupportedDecoding p) ->
        decode_loop (d :: rest) best type_ json path
        = decode_loop rest (Failed e) type_ json path)
  /\ (forall (d : decoder) rest best e p,
        d type_ json path = Return (Failed e) ->
        reason e = UnsupportedDecoding p ->
        decode_loop (d :: rest) best type_ json path
        = decode_loop rest best type_ json path)
  /\ (forall best, decode_loop [] best type_ json path = Return best)
  /\ (forall (ds1 ds2 : list decoder) (d : decoder) best e,
        Forall (fun d' => exists e', d' type_ json path = Return (Failed e')) ds1 ->
        d type_ json path = Return (Failed e) ->
        (forall p, reason e <> UnsupportedDecoding p) ->
        Forall (fun d' => exists p,
                  d' type_ json path = Return (Error (UnsupportedDecoding p))) ds2 ->
        decode_loop (ds1 ++ d :: ds2) best type_ json path = Return (Failed e))
  /\ ((forall d, In d (decoders decode) ->
         exists p, d type_ json path = Return (Error (UnsupportedDecoding p))) ->
      decode type_ json path = Return (Error (UnsupportedDecoding path))).
Proof.
  split; [rewrite decode_unfold; unfold decode_body, decoders; reflexivity|].
  split; [intros d rest best v Hd; cbn [decode_loop]; rewrite Hd; reflexivity|].
  split; [intros; now apply decode_loop_failures|].
  split.
  { intros d rest best e Hd He. cbn [decode_loop]. rewrite Hd. cbn [bind].
    rewrite (not_UnsupportedDecoding He). reflexivity. }
  split.
  { intros d rest best e p Hd He. cbn [decode_loop]. rewrite Hd. cbn [bind].
    rewrite He. reflexivity. }
  split; [reflexivity|].
  split; [intros; now apply decode_loop_last_definitive|].
  intros Hall. rewrite decode_unfold. unfold decode_body.
  apply decode_loop_unsupported. rewrite Forall_forall. exact Hall.
Qed.

Lemma C1_decode_dispatch_witness :
  decode (TOther "bytes") VNone [] = Return (Error (UnsupportedDecoding []))
  /\ decode TInt (VStr "x") [] = Return (Error (TypeMismatch []))
  /\ decode_loop [ (fun _ _ p => Return (Error (TypeMismatch p))); decode_as_any ]
       (Error (UnsupportedDecoding [])) TAny (VInt 1) []
     = Return (Decoded (VInt 1)).
Proof.
  split; [|split].
  - apply (C1_decode_dispatch (TOther "bytes") VNone []).
    intros d Hd. exists []. unfold decoders in Hd. cbn [In] in Hd.
    repeat (destruct Hd as [<-|Hd]; [reflexivity|]). contradiction.
  - pose proof (C1_decode_dispatch TInt (VStr "x") [])
      as (Heq & _ & _ & _ & _ & _ & Hlast & _).
    rewrite Heq.
    apply (Hlast [decode_as_union decode; decode_as_tuple decode; decode_as_list decode]
                 [decode_as_class decode; decode_as_dict decode; decode_as_any]
                 decode_as_primitive).
    + repeat constructor; eexists; reflexivity.
    + reflexivity.
    + intros p. discriminate.
    + repeat constructor; exists []; reflexivity.
  - pose proof (C1_decode_dispatch TAny (VInt 1) []) as (_ & _ & Hlate & _).
    apply (Hlate [fun _ _ p => Return (Error (TypeMismatch p))] decode_as_any []).
    + repeat constructor. eexists. reflexivity.
    + reflexivity.
Defined.

(* ------------------------------------------------------------------ *)
(** ** What the dispatcher returns on each kind of descriptor *)

Lemma decode_loop_single (ds1 ds2 : list decoder) (d : decoder) (best : outcome)
    (type_ : ty) (json : value) (path : Path) :
  Forall (fun d' => exists p, d' type_ json path = Return (Error (UnsupportedDecoding p))) ds1 ->
  Forall (fun d' => exists p, d' type_ json path = Return (Error (UnsupportedDecoding p))) ds2 ->
  decode_loop (ds1 ++ d :: ds2) best type_ json path
  = bind (d type_ json path) (fun result =>
      Return match result with
             | Decoded v => Decoded v
             | Failed e => if is_UnsupportedDecoding (reason e) then best else Failed e
             end).
Proof.
  intros H1 H2. induction H1 as [|d' ds1 [p Hp] _ IH]; cbn [app decode_loop].
  - destruct (d type_ json path) as [[v|e]|e]; cbn [bind]; auto.
    destruct (is_UnsupportedDecoding (reason e)); cbn [negb];
      now apply decode_loop_unsupported.
  - rewrite Hp. exact IH.
Qed.

Ltac unsupported_strategies :=
  repeat (apply Forall_cons; [eexists; cbv beta delta [decode_as_union decode_as_tuple decode_as_list decode_as_primitive decode_as_class decode_as_dict decode_as_any] ; cbn; try reflexivity; match goal with |- context [match ?j with _ => _ end] => destruct j; reflexivity end|]); apply Forall_nil.

Lemma decode_on_one {builtins : PyBuiltins} (ds1 ds2 : list decoder) (d : decoder)
    (type_ : ty) (json : value) (path : Path) :
  decoders decode = ds1 ++ d :: ds2 ->
  Forall (fun d' => exists p, d' type_ json path = Return (Error (UnsupportedDecoding p))) ds1 ->
  Forall (fun d' => exists p, d' type_ json path = Return (Error (UnsupportedDecoding p))) ds2 ->
  decode type_ json path
  = bind (d type_ json path) (fun result => Return (settle path result)).
Proof.
  intros Hds H1 H2. rewrite decode_unfold. unfold decode_body. rewrite Hds.
  now apply decode_loop_single.
Qed.

Lemma decode_TList {builtins : PyBuiltins} args json path :
  decode (TList args) json path
  = bind (decode_as_list decode (TList args) json path)
         (fun result => Return (settle path result)).
Proof.
  apply (decode_on_one (ds1:=[decode_as_union decode; decode_as_tuple decode]) (ds2:=[decode_as_primitive; decode_as_class decode; decode_as_dict decode; decode_as_any]));
    [reflexivity| |]; unsupported_strategies.
Qed.

Lemma decode_TTuple {builtins : PyBuiltins} args json path :
  decode (TTuple args) json path
  = bind (decode_as_tuple decode (TTuple args) json path)
         (fun result => Return (settle path result)).
Proof.
  apply (decode_on_one (ds1:=[decode_as_union decode]) (ds2:=[decode_as_list decode; decode_as_primitive; decode_as_class decode;
            decode_as_dict decode; decode_as_any]));
    [reflexivity| |]; unsupported_strategies.
Qed.

Lemma decode_TUnion {builtins : PyBuiltins} args json path :
  decode (TUnion args) json path
  = bind (decode_as_union decode (TUnion args) json path)
         (fun result => Return (settle path result)).
Proof.
  apply (decode_on_one (ds1:=[]) (ds2:=[decode_as_tuple decode; decode_as_list decode; decode_as_primitive;
            decode_as_class decode; decode_as_dict decode; decode_as_any]));
    [reflexivity| |]; unsupported_strategies.
Qed.

Lemma decode_TDict {builtins : PyBuiltins} args json path :
  decode (TDict args) json path
  = bind (decode_as_dict decode (TDict args) json path)
         (fun result => Return (settle path result)).
Proof.
  apply (decode_on_one (ds1:=[decode_as_union decode; decode_as_tuple decode; decode_as_list decode;
            decode_as_primitive; decode_as_class decode]) (ds2:=[decode_as_any]));
    [reflexivity| |]; unsupported_strategies.
Qed.

Lemma decode_TClass {builtins : PyBuiltins} name hints init json path :
  decode (TClass name hints init) json path
  = bind (decode_as_class decode (TClass name hints init) json path)
         (fun result => Return (settle path result)).
Proof.
  apply (decode_on_one (ds1:=[decode_as_union decode; decode_as_tuple decode; decode_as_list decode;
            decode_as_primitive]) (ds2:=[decode_as_dict decode; decode_as_any]));
    [reflexivity| |]; unsupported_strategies.
Qed.

Lemma decode_scalar {builtins : PyBuiltins} type_ json path :
  origin_of type_ = None -> hints_of type_ = None -> is_Any type_ = false ->
  decode type_ json path
  = bind (decode_as_primitive type_ json path)
         (fun result => Return (settle path result)).
Proof.
  intros Ho Hh Ha.
  apply (decode_on_one (ds1:=[decode_as_union decode; decode_as_tuple decode; decode_as_list decode]) (ds2:=[decode_as_class decode; decode_as_dict decode; decode_as_any]));
    [reflexivity| |];
    repeat (apply Forall_cons;
      [exists path; unfold decode_as_union, decode_as_tuple, decode_as_list,
         decode_as_class, decode_as_dict, decode_as_any;
       rewrite ?Ho, ?Hh, ?Ha; try reflexivity; destruct json; reflexivity|]);
    apply Forall_nil.
Qed.

Lemma decode_TAny {builtins : PyBuiltins} json path :
  decode TAny json path = Return (Decoded json).
Proof.
  rewrite (decode_on_one (ds1:=[decode_as_union decode; decode_as_tuple decode; decode_as_list decode;
            decode_as_primitive; decode_as_class decode; decode_as_dict decode]) (ds2:=[]) decode_as_any); [reflexivity|reflexivity| |]; unsupported_strategies.
Qed.

(* ------------------------------------------------------------------ *)
(** ** The scalar strategy *)

Lemma pyclass_eqb_eq (a b : pyclass) : pyclass_eqb a b = true <-> a = b.
Proof.
  split.
  - destruct a, b; simpl; try discriminate; try reflexivity.
    intros H. apply String.eqb_eq in H. now subst.
  - intros <-. destruct a; simpl; try reflexivity. apply String.eqb_refl.
Qed.

Lemma primitive_is_scalar (type_ : ty) (cls : pyclass) :
  primitive_class type_ = Some cls ->
  origin_of type_ = None /\ hints_of type_ = None /\ is_Any type_ = false
  /\ is_float type_ = false.
Proof. destruct type_; simpl; intros H; try discriminate; auto. Qed.

(** C7.  For a descriptor of the exact scalar set (text, integer, boolean,
    null, date, timestamp) with class [cls], the scalar strategy returns
    the input unchanged when the class of the input is exactly [cls] and
    [TypeMismatch] at the current path when it is not, and nothing else
    makes it succeed; the dispatcher returns the same.  So [True] decodes
    against boolean, and against integer it is a [TypeMismatch] at the
    empty path although [True] is an instance of [int]. *)
Theorem C7_primitive_exact {builtins : PyBuiltins} (type_ : ty) (cls : pyclass)
    (json : value) (path : Path) :
  primitive_class type_ = Some cls ->
  (type_of json = cls ->
     decode_as_primitive type_ json path = Return (Decoded json)
     /\ decode type_ json path = Return (Decoded json))
  /\ (type_of json <> cls ->
     decode_as_primitive type_ json path = Return (Error (TypeMismatch path))
     /\ decode type_ json path = Return (Error (TypeMismatch path)))
  /\ ((exists v, decode_as_primitive type_ json path = Return (Decoded v)) <->
      type_of json = cls)
  /\ decode TBool (VBool true) [] = Return (Decoded (VBool true))
  /\ decode TInt (VBool true) [] = Return (Error (TypeMismatch []))
  /\ isinstance (VBool true) CInt = true.
Proof.
  intros Hp. destruct (primitive_is_scalar _ Hp) as (Ho & Hh & Ha & Hf).
  assert (Hyes : type_of json = cls ->
                 decode_as_primitive type_ json path = Return (Decoded json)).
  { intros Ht. unfold decode_as_primitive. rewrite Hf, Hp.
    apply pyclass_eqb_eq in Ht. now rewrite Ht. }
  assert (Hno : type_of json <> cls ->
                decode_as_primitive type_ json path = Return (Error (TypeMismatch path))).
  { intros Ht. unfold decode_as_primitive. rewrite Hf, Hp.
    destruct (pyclass_eqb (type_of json) cls) eqn:E; [|reflexivity].
    apply pyclass_eqb_eq in E. contradiction. }
  split; [|split; [|split]].
  - intros Ht. split; [auto|]. rewrite (decode_scalar type_ json path Ho Hh Ha), (Hyes Ht). reflexivity.
  - intros Ht. split; [auto|]. rewrite (decode_scalar type_ json path Ho Hh Ha), (Hno Ht). reflexivity.
  - split.
    + intros [v Hv]. destruct (pyclass_eqb (type_of json) cls) eqn:E.
      * now apply pyclass_eqb_eq.
      * rewrite Hno in Hv; [discriminate|].
        intros Ht. apply pyclass_eqb_eq in Ht. congruence.
    + intros Ht. exists json. auto.
  - repeat split; reflexivity.
Qed.

Lemma C7_primitive_exact_witness :
  decode TStr (VStr "x") ["k"] = Return (Decoded (VStr "x")).
Proof.
  apply (C7_primitive_exact (cls := CStr) TStr (VStr "x") ["k"]); reflexivity.
Defined.

(* ------------------------------------------------------------------ *)
(** ** Equality of failure reasons *)

Lemma Path_eqb_eq (p q : Path) : Path_eqb p q = true <-> p = q.
Proof.
  unfold Path_eqb. destruct (list_eq_dec string_dec p q); split; auto; discriminate.
Qed.

(** C8.  Two failure reasons compare equal exactly when they are of the
    same kind and have the same path and, when both are
    [InitializationError]s, carry the same underlying error, which for an
    exception is the same object: the same identity.  Reasons of different
    kinds are never equal.  Two [DecodingError]s compare equal exactly when
    their reasons do, a reason never equals a [DecodingError], and a
    [DecodingError] never equals a reason. *)
Theorem C8_reason_equality (r1 r2 : FailureReason) (e1 e2 : DecodingError) :
  (FailureReason_eq r1 (ObjReason r2) = true <->
     kind_of r1 = kind_of r2 /\ path_of r1 = path_of r2
     /\ forall u1 u2, underlying_of r1 = Some u1 -> underlying_of r2 = Some u2 ->
                      te_ident u1 = te_ident u2)
  /\ (kind_of r1 <> kind_of r2 -> FailureReason_eq r1 (ObjReason r2) = false)
  /\ (r1 = r2 -> FailureReason_eq r1 (ObjReason r2) = true)
  /\ (DecodingError_eq e1 (ObjError e2) = true <->
        kind_of (reason e1) = kind_of (reason e2)
        /\ path_of (reason e1) = path_of (reason e2)
        /\ forall u1 u2, underlying_of (reason e1) = Some u1 ->
                         underlying_of (reason e2) = Some u2 ->
                         te_ident u1 = te_ident u2)
  /\ FailureReason_eq r1 (ObjError e2) = false
  /\ DecodingError_eq e1 (ObjReason r2) = false.
Proof.
  assert (Hiff : forall a b,
            FailureReason_eq a (ObjReason b) = true <->
            kind_of a = kind_of b /\ path_of a = path_of b
            /\ forall u1 u2, underlying_of a = Some u1 -> underlying_of b = Some u2 ->
                             te_ident u1 = te_ident u2).
  { intros [p|p|p u] [q|q|q v]; simpl;
      try (split; [discriminate | intros (H & _ & _); discriminate]).
    - rewrite Path_eqb_eq. split; [intros ->; repeat split; discriminate|].
      intros (_ & H & _). exact H.
    - rewrite Path_eqb_eq. split; [intros ->; repeat split; discriminate|].
      intros (_ & H & _). exact H.
    - rewrite andb_true_iff, Path_eqb_eq. unfold TypeError_eq. rewrite N.eqb_eq. split.
      + intros [Hu ->]. repeat split. intros u1 u2 [= <-] [= <-]. exact Hu.
      + intros (_ & Hp & Hu). split; [|exact Hp]. now apply Hu. }
  split; [apply Hiff|]. split; [|split; [|split; [|split]]].
  - destruct r1, r2; simpl; intros H; try reflexivity; contradiction H; reflexivity.
  - intros <-. apply Hiff. repeat split. intros u1 u2 H1 H2. congruence.
  - apply (Hiff (reason e1) (reason e2)).
  - destruct r1; reflexivity.
  - reflexivity.
Qed.

Lemma C8_reason_equality_witness :
  FailureReason_eq (InitializationError ["a"] (mkTypeError 1 "missing"))
    (ObjReason (InitializationError ["a"] (mkTypeError 1 "missing"))) = true
  /\ FailureReason_eq (InitializationError ["a"] (mkTypeError 1 "missing"))
       (ObjReason (InitializationError ["a"] (mkTypeError 2 "missing"))) <> true
  /\ FailureReason_eq (TypeMismatch ["a"]) (ObjReason (TypeMismatch ["b"])) <> true
  /\ FailureReason_eq (TypeMismatch ["a"]) (ObjReason (UnsupportedDecoding ["a"])) = false.
Proof.
  split; [|split; [|split]].
  - destruct (C8_reason_equality (InitializationError ["a"] (mkTypeError 1 "missing"))
                (InitializationError ["a"] (mkTypeError 1 "missing"))
                (mkDecodingError (TypeMismatch [])) (mkDecodingError (TypeMismatch [])))
      as ([_ Hif] & _).
    apply Hif. split; [reflexivity|]. split; [reflexivity|].
    intros u1 u2 H1 H2. injection H1 as <-. injection H2 as <-. reflexivity.
  - intros H.
    destruct (C8_reason_equality (InitializationError ["a"] (mkTypeError 1 "missing"))
                (InitializationError ["a"] (mkTypeError 2 "missing"))
                (mkDecodingError (TypeMismatch [])) (mkDecodingError (TypeMismatch [])))
      as ([Honly _] & _).
    destruct (Honly H) as (_ & _ & Hu). specialize (Hu _ _ eq_refl eq_refl).
    discriminate Hu.
  - intros H.
    destruct (C8_reason_equality (TypeMismatch ["a"]) (TypeMismatch ["b"])
                (mkDecodingError (TypeMismatch [])) (mkDecodingError (TypeMismatch [])))
      as ([Honly _] & _).
    destruct (Honly H) as (_ & Hp & _). discriminate Hp.
  - destruct (C8_reason_equality (TypeMismatch ["a"]) (UnsupportedDecoding ["a"])
                (mkDecodingError (TypeMismatch [])) (mkDecodingError (TypeMismatch [])))
      as (_ & Hkind & _).
    apply Hkind. discriminate.
Defined.

(* ------------------------------------------------------------------ *)
(** ** Exceptions that leave the engine *)

(** C2.  Against a fixed-arity sequence descriptor an integer input makes
    [len(json)] raise: the [TypeError] leaves [decode_as_tuple] and
    [decode], where the homogeneous sequence strategy answers the same
    input with a [TypeMismatch]. *)
Theorem C2_tuple_int_raises {builtins : PyBuiltins} (args : list ty) (z : Z) (path : Path) :
  decode (TTuple args) (VInt z) path = Raise (ExTypeError "object has no len()")
  /\ decode (TTuple [TInt]) (VInt 5) [] = Raise (ExTypeError "object has no len()")
  /\ decode (TList [TInt]) (VInt 5) [] = Return (Error (TypeMismatch [])).
Proof.
  split; [|split].
  - rewrite decode_TTuple. reflexivity.
  - rewrite decode_TTuple. reflexivity.
  - rewrite decode_TList. reflexivity.
Qed.

(* ------------------------------------------------------------------ *)
(** ** The sum-type strategy *)

Section SumType.

Context {builtins : PyBuiltins}.
Variable rec : decoder.

Lemma union_loop_first_success pre a post json path v decoded :
  Forall (fun b => exists e, rec b json path = Return (Failed e)) pre ->
  rec a json path = Return (Decoded v) ->
  union_loop rec (pre ++ a :: post) json path decoded = Return (Decoded v).
Proof.
  intros Hpre Ha. revert decoded.
  induction Hpre as [|b pre [e He] _ IH]; intros decoded; cbn [app union_loop].
  - rewrite Ha. reflexivity.
  - rewrite He. cbn [bind]. apply IH.
Qed.

Lemma union_loop_all_fail pre a json path e decoded :
  Forall (fun b => exists e', rec b json path = Return (Failed e')) pre ->
  rec a json path = Return (Failed e) ->
  union_loop rec (pre ++ [a]) json path decoded = Return (Failed e).
Proof.
  intros Hpre Ha. revert decoded.
  induction Hpre as [|b pre [e' He'] _ IH]; intros decoded; cbn [app union_loop].
  - rewrite Ha. reflexivity.
  - rewrite He'. cbn [bind]. apply IH.
Qed.

End SumType.

(** C3.  On a sum type none of whose alternatives is an unbound generic
    parameter, the strategy decodes the value against the alternatives in
    the declared order, at the unchanged path: when the alternatives before
    [a] fail and [a] succeeds, the value of [a] is returned whatever comes
    after [a]; when every alternative fails, the error of the last one is
    returned.  When some alternative is an unbound generic parameter the
    strategy returns [UnsupportedDecoding] whatever the recursive call
    would do, so no alternative is tried.  This holds for any recursive
    call [rec], and [decode] is one. *)
Theorem C3_union_first_success {builtins : PyBuiltins} (rec : decoder)
    (args : list ty) (json : value) (path : Path) :
  (existsb is_TypeVar args = false ->
     (forall pre a post v,
        args = pre ++ a :: post ->
        Forall (fun b => exists e, rec b json path = Return (Failed e)) pre ->
        rec a json path = Return (Decoded v) ->
        decode_as_union rec (TUnion args) json path = Return (Decoded v))
     /\ (forall pre a e,
        args = pre ++ [a] ->
        Forall (fun b => exists e', rec b json path = Return (Failed e')) pre ->
        rec a json path = Return (Failed e) ->
        decode_as_union rec (TUnion args) json path = Return (Failed e)))
  /\ (existsb is_TypeVar args = true ->
      forall rec' : decoder,
        decode_as_union rec' (TUnion args) json path
        = Return (Error (UnsupportedDecoding path))).
Proof.
  split.
  - intros Hvar. split.
    + intros pre a post v -> Hpre Ha. unfold decode_as_union.
      cbn [origin_of args_of]. rewrite Hvar.
      now apply union_loop_first_success.
    + intros pre a e -> Hpre Ha. unfold decode_as_union.
      cbn [origin_of args_of]. rewrite Hvar.
      now apply union_loop_all_fail.
  - intros Hvar rec'. unfold decode_as_union. cbn [origin_of args_of].
    rewrite Hvar. reflexivity.
Qed.

Lemma C3_union_first_success_witness :
  decode_as_union decode (TUnion [TInt; TStr]) (VStr "x") [] = Return (Decoded (VStr "x"))
  /\ decode_as_union decode (TUnion [TInt; TBool]) (VStr "x") []
     = Return (Error (TypeMismatch []))
  /\ decode_as_union decode (TUnion [TInt; TTypeVar "T"]) (VInt 1) []
     = Return (Error (UnsupportedDecoding [])).
Proof.
  split; [|split].
  - apply (proj1 (C3_union_first_success decode [TInt; TStr] (VStr "x") []) eq_refl)
      with (pre := [TInt]) (a := TStr) (post := []).
    + reflexivity.
    + repeat constructor. eexists. vm_compute. reflexivity.
    + vm_compute. reflexivity.
  - apply (proj1 (C3_union_first_success decode [TInt; TBool] (VStr "x") []) eq_refl)
      with (pre := [TInt]) (a := TBool).
    + reflexivity.
    + repeat constructor. eexists. vm_compute. reflexivity.
    + vm_compute. reflexivity.
  - apply (proj2 (C3_union_first_success decode [TInt; TTypeVar "T"] (VInt 1) []) eq_refl).
Defined.

(* ------------------------------------------------------------------ *)
(** ** The fixed-arity sequence strategy *)

Lemma length_list_ascii_of_string (s : string) :
  List.length (list_ascii_of_string s) = String.length s.
Proof. induction s as [|c s IH]; simpl; congruence. Qed.

Lemma py_iter_len (json : value) (elements : list value) :
  py_iter json = Return elements ->
  py_len json = Return (Z.of_nat (List.length elements)).
Proof.
  destruct json; simpl; try discriminate; intros [= <-].
  - now rewrite length_map, length_list_ascii_of_string.
  - reflexivity.
  - reflexivity.
  - now rewrite length_map.
Qed.

Lemma py_len_nonneg (json : value) (n : Z) : py_len json = Return n -> (0 <= n)%Z.
Proof. destruct json; simpl; try discriminate; intros [= <-]; lia. Qed.

Lemma py_len_iter (json : value) (n : Z) :
  py_len json = Return n ->
  exists elements, py_iter json = Return elements /\ n = Z.of_nat (List.length elements).
Proof.
  destruct json; simpl; try discriminate; intros [= <-]; eexists; split;
    try reflexivity.
  - now rewrite length_map, length_list_ascii_of_string.
  - now rewrite length_map.
Qed.

Lemma rev_head_last (args : list ty) (t d : ty) (l : list ty) :
  rev args = t :: l -> last args d = t.
Proof.
  intros H. rewrite <- (rev_involutive args), H. simpl. apply last_last.
Qed.

(** On a non-empty list [_required_length] is the required minimum of the
    specification. *)
Lemma required_length_minimum (args : list ty) :
  args <> [] -> _required_length args = Return (required_minimum args).
Proof.
  intros Hne. unfold _required_length, required_minimum.
  destruct (rev args) as [|t l] eqn:E.
  - apply (f_equal (@rev ty)) in E. rewrite rev_involutive in E. contradiction.
  - rewrite (rev_head_last args TAny E). destruct (is_ellipsis t); reflexivity.
Qed.

Lemma required_minimum_fixed (args : list ty) :
  no_ellipsis args = true -> required_minimum args = Z.of_nat (List.length args).
Proof.
  intros H. unfold required_minimum.
  destruct args as [|a args]; [reflexivity|].
  assert (Hin : In (last (a :: args) TAny) (a :: args)).
  { destruct (exists_last (l := a :: args)) as (l' & x & E); [discriminate|].
    rewrite E, last_last. apply in_or_app. right. now left. }
  unfold no_ellipsis in H. rewrite forallb_forall in H. specialize (H _ Hin).
  destruct (is_ellipsis _); [discriminate|reflexivity].
Qed.

Lemma required_minimum_variadic (fixed : list ty) (T : ty) :
  required_minimum (fixed ++ [T; TEllipsis]) = Z.of_nat (List.length fixed).
Proof.
  unfold required_minimum.
  change (fixed ++ [T; TEllipsis]) with (fixed ++ [T] ++ [TEllipsis]).
  rewrite app_assoc, last_last. cbn [is_ellipsis].
  rewrite !length_app. cbn [List.length]. lia.
Qed.

Section FixedArity.

Context {builtins : PyBuiltins}.
Variable rec : decoder.

(** The loop over the descriptors [types] that decode: it stops there when
    the descriptors are used up, whatever input is left ([extra]), and
    when the input is used up while a descriptor that is not the marker
    comes next. *)
Lemma tuple_loop_walk path tail extra : forall types elements vs last index list_decoded,
  no_ellipsis types = true ->
  decodes_each rec path index types elements vs ->
  tail = [] \/ (extra = [] /\ exists T more, tail = T :: more /\ is_ellipsis T = false) ->
  tuple_loop rec (Walking (types ++ tail) last) (elements ++ extra) path index list_decoded
  = Return (Decoded (VTuple (list_decoded ++ vs))).
Proof.
  induction types as [|t types IH]; intros elements vs last index acc Hno Heach Htail.
  - destruct elements, vs; try contradiction. rewrite app_nil_r. cbn [app].
    destruct Htail as [->|(-> & T & more & -> & HT)].
    + destruct extra; reflexivity.
    + cbn [tuple_loop iter_args_next]. rewrite HT. reflexivity.
  - destruct elements as [|e elements], vs as [|v vs]; try contradiction.
    destruct Heach as [He Heach]. cbn [no_ellipsis forallb] in Hno.
    apply andb_true_iff in Hno. destruct Hno as [Ht Hno].
    apply negb_true_iff in Ht.
    cbn [app tuple_loop iter_args_next]. rewrite Ht. cbn [bind]. rewrite He. cbn [bind].
    rewrite (IH elements vs (Some t) (S index) (acc ++ [v]) Hno Heach Htail).
    now rewrite <- app_assoc.
Qed.

Lemma decodes_each_length path index types elements vs :
  decodes_each rec path index types elements vs ->
  List.length elements = List.length types /\ List.length vs = List.length types.
Proof.
  revert index elements vs.
  induction types as [|t types IH]; intros index [|e elements] [|v vs] H;
    try contradiction; [split; reflexivity|].
  destruct H as [_ H]. destruct (IH _ _ _ H). simpl. split; congruence.
Qed.

Lemma decode_as_tuple_null args path :
  decode_as_tuple rec (TTuple args) VNone path = Return (Error (TypeMismatch path)).
Proof. reflexivity. Qed.

Lemma decode_as_tuple_short args json n path :
  py_len json = Return n -> (n < required_minimum args)%Z ->
  decode_as_tuple rec (TTuple args) json path = Return (Error (TypeMismatch path)).
Proof.
  intros Hlen Hlt. pose proof (py_len_nonneg _ Hlen) as Hn.
  assert (Hne : args <> []).
  { intros ->. unfold required_minimum in Hlt. simpl in Hlt. lia. }
  unfold decode_as_tuple. cbn [origin_of args_of].
  destruct json; try discriminate Hlen;
    rewrite Hlen; cbn [bind]; rewrite (required_length_minimum Hne); cbn [bind];
    (destruct (Z.gtb_spec (required_minimum args) n); [reflexivity|lia]).
Qed.

(** Past the two guards the strategy is the loop. *)
Lemma decode_as_tuple_loop args json elements path :
  args <> [] ->
  py_iter json = Return elements ->
  (required_minimum args <= Z.of_nat (List.length elements))%Z ->
  decode_as_tuple rec (TTuple args) json path
  = tuple_loop rec (_iter_args args) elements path 0 [].
Proof.
  intros Hne Hiter Hle. pose proof (py_iter_len _ Hiter) as Hlen.
  unfold decode_as_tuple. cbn [origin_of args_of].
  destruct json; try discriminate Hiter;
    rewrite Hlen; cbn [bind]; rewrite (required_length_minimum Hne); cbn [bind];
    (destruct (Z.gtb_spec (required_minimum args) (Z.of_nat (List.length elements)));
     [lia|]); rewrite Hiter; reflexivity.
Qed.

Lemma decode_as_tuple_variadic_empty fixed T json elements vs path :
  no_ellipsis (fixed ++ [T]) = true ->
  py_iter json = Return elements ->
  decodes_each rec path 0 fixed elements vs ->
  decode_as_tuple rec (TTuple (fixed ++ [T; TEllipsis])) json path
  = Return (Decoded (VTuple vs)).
Proof.
  intros Hno Hiter Heach.
  destruct (decodes_each_length _ _ _ _ _ Heach) as [Hlen _].
  unfold no_ellipsis in Hno. rewrite forallb_app in Hno.
  apply andb_true_iff in Hno. destruct Hno as [Hfixed HT].
  cbn [forallb] in HT. rewrite andb_true_r in HT. apply negb_true_iff in HT.
  rewrite (@decode_as_tuple_loop _ json elements path).
  - unfold _iter_args. rewrite <- (app_nil_r elements).
    apply (tuple_loop_walk path (tail := [T; TEllipsis]) (extra := []) fixed
             elements vs None 0 [] Hfixed Heach).
    right. split; [reflexivity|]. now exists T, [TEllipsis].
  - destruct fixed; discriminate.
  - exact Hiter.
  - rewrite required_minimum_variadic. lia.
Qed.

Lemma decode_as_tuple_extra args json elements vs path :
  args <> [] ->
  no_ellipsis args = true ->
  py_iter json = Return elements ->
  List.length args < List.length elements ->
  decodes_each rec path 0 args (firstn (List.length args) elements) vs ->
  decode_as_tuple rec (TTuple args) json path = Return (Decoded (VTuple vs)).
Proof.
  intros Hne Hno Hiter Hlt Heach.
  rewrite (@decode_as_tuple_loop _ json elements path Hne Hiter).
  - unfold _iter_args.
    rewrite <- (firstn_skipn (List.length args) elements) at 1.
    rewrite <- (app_nil_r args) at 1.
    apply (tuple_loop_walk path (tail := []) args _ vs None 0 [] Hno Heach).
    now left.
  - rewrite (required_minimum_fixed _ Hno). lia.
Qed.

End FixedArity.

(** C4.  On a fixed-arity sequence descriptor a null input is a
    [TypeMismatch] at the current path, and so is an input whose length is
    below the required minimum, which is the count of element descriptors
    minus 2 when the list ends in the variadic marker and the full count
    otherwise.  On a descriptor list [fixed ++ [T; ...]] an input with as
    many elements as [fixed], each decoding against its descriptor, meets
    the minimum and decodes to the sequence of the decoded elements: the
    empty variadic tail is no failure.  The strategy statements hold for
    any recursive call [rec]; the last three lines are the dispatcher on
    the descriptor (integer, text, boolean, ...). *)
Theorem C4_tuple_minimum_length {builtins : PyBuiltins} (rec : decoder)
    (args : list ty) (path : Path) :
  decode_as_tuple rec (TTuple args) VNone path = Return (Error (TypeMismatch path))
  /\ decode (TTuple args) VNone path = Return (Error (TypeMismatch path))
  /\ (forall json n,
        py_len json = Return n -> (n < required_minimum args)%Z ->
        decode_as_tuple rec (TTuple args) json path = Return (Error (TypeMismatch path))
        /\ decode (TTuple args) json path = Return (Error (TypeMismatch path)))
  /\ (forall fixed T json elements vs,
        args = fixed ++ [T; TEllipsis] ->
        no_ellipsis (fixed ++ [T]) = true ->
        py_iter json = Return elements ->
        decodes_each rec path 0 fixed elements vs ->
        Z.of_nat (List.length elements) = required_minimum args
        /\ decode_as_tuple rec (TTuple args) json path = Return (Decoded (VTuple vs)))
  /\ decode (TTuple [TInt; TStr; TBool; TEllipsis])
            (VList [VInt 1; VStr "a"; VBool true; VBool false]) []
     = Return (Decoded (VTuple [VInt 1; VStr "a"; VBool true; VBool false]))
  /\ decode (TTuple [TInt; TStr; TBool; TEllipsis]) (VList [VInt 1; VStr "a"]) []
     = Return (Decoded (VTuple [VInt 1; VStr "a"]))
  /\ decode (TTuple [TInt; TStr; TBool; TEllipsis]) (VList [VInt 1]) []
     = Return (Error (TypeMismatch [])).
Proof.
  split; [reflexivity|].
  split; [rewrite decode_TTuple; reflexivity|].
  split.
  { intros json n Hlen Hlt. split; [now apply decode_as_tuple_short with n|].
    rewrite decode_TTuple, (decode_as_tuple_short decode args json path Hlen Hlt).
    reflexivity. }
  split.
  { intros fixed T json elements vs -> Hno Hiter Heach. split.
    - rewrite required_minimum_variadic.
      now destruct (decodes_each_length _ _ _ _ _ _ Heach) as [-> _].
    - now apply decode_as_tuple_variadic_empty with elements. }
  repeat split; rewrite decode_TTuple; vm_compute; reflexivity.
Qed.

Lemma C4_tuple_minimum_length_witness :
  decode_as_tuple decode (TTuple [TInt; TStr; TBool; TEllipsis]) (VStr "a") ["k"]
  = Return (Error (TypeMismatch ["k"]))
  /\ decode_as_tuple decode (TTuple [TInt; TStr; TBool; TEllipsis])
       (VList [VInt 1; VStr "a"]) ["k"]
     = Return (Decoded (VTuple [VInt 1; VStr "a"])).
Proof.
  pose proof (C4_tuple_minimum_length decode [TInt; TStr; TBool; TEllipsis] ["k"])
    as (_ & _ & Hshort & Hempty & _).
  split.
  - apply (Hshort (VStr "a") 1%Z); [reflexivity|vm_compute; reflexivity].
  - apply (Hempty [TInt; TStr] TBool (VList [VInt 1; VStr "a"]) [VInt 1; VStr "a"]
             [VInt 1; VStr "a"]); try reflexivity.
    vm_compute. auto.
Defined.

(** C10, amended.  On a fixed-arity sequence descriptor with a non-empty
    list of element descriptors and no variadic marker, an input with more
    elements than descriptors whose leading elements decode against the
    descriptors decodes to the sequence of these: the elements past the
    descriptor list are not looked at and the result has as many elements
    as there are descriptors.  So [[1, 2, 3]] against the one-element
    integer descriptor gives [(1,)]. *)
Theorem C10_tuple_extra_ignored {builtins : PyBuiltins} (args : list ty) (json : value)
    (elements vs : list value) (path : Path) :
  args <> [] ->
  no_ellipsis args = true ->
  py_iter json = Return elements ->
  List.length args < List.length elements ->
  decodes_each decode path 0 args (firstn (List.length args) elements) vs ->
  decode_as_tuple decode (TTuple args) json path = Return (Decoded (VTuple vs))
  /\ decode (TTuple args) json path = Return (Decoded (VTuple vs))
  /\ List.length vs = List.length args
  /\ decode (TTuple [TInt]) (VList [VInt 1; VInt 2; VInt 3]) []
     = Return (Decoded (VTuple [VInt 1])).
Proof.
  intros Hne Hno Hiter Hlt Heach.
  pose proof (@decode_as_tuple_extra decode args json elements vs path
                Hne Hno Hiter Hlt Heach) as H.
  split; [exact H|]. split; [rewrite decode_TTuple, H; reflexivity|].
  split; [now destruct (decodes_each_length _ _ _ _ _ _ Heach)|].
  rewrite decode_TTuple. vm_compute. reflexivity.
Qed.

Lemma C10_tuple_extra_ignored_witness :
  decode (TTuple [TInt; TStr]) (VList [VInt 1; VStr "a"; VNone; VBool true]) ["k"]
  = Return (Decoded (VTuple [VInt 1; VStr "a"])).
Proof.
  apply (@C10_tuple_extra_ignored tree_builtins [TInt; TStr]
           (VList [VInt 1; VStr "a"; VNone; VBool true])
           [VInt 1; VStr "a"; VNone; VBool true]
           [VInt 1; VStr "a"] ["k"]).
  - discriminate.
  - reflexivity.
  - reflexivity.
  - simpl. lia.
  - vm_compute. auto.
Defined.

(** C10, the descriptor list the statement has to leave out: on the empty
    list of element descriptors every other hypothesis holds for the
    one-element input [[1]], and the engine raises [IndexError] in
    [_required_length] before any element is looked at, so it does not
    return the empty sequence. *)
Lemma C10_empty_descriptor_counterexample :
  no_ellipsis [] = true
  /\ py_iter (VList [VInt 1]) = Return [VInt 1]
  /\ List.length (@nil ty) < List.length [VInt 1]
  /\ decodes_each decode [] 0 [] (firstn (List.length (@nil ty)) [VInt 1]) []
  /\ decode_as_tuple decode (TTuple []) (VList [VInt 1]) [] = Raise ExIndexError
  /\ decode (TTuple []) (VList [VInt 1]) [] = Raise ExIndexError
  /\ ~ (forall (args : list ty) (json : value) (elements vs : list value) (path : Path),
          no_ellipsis args = true ->
          py_iter json = Return elements ->
          List.length args < List.length elements ->
          decodes_each decode path 0 args (firstn (List.length args) elements) vs ->
          decode (TTuple args) json path = Return (Decoded (VTuple vs))).
Proof.
  assert (Hraise : decode (TTuple []) (VList [VInt 1]) [] = Raise ExIndexError).
  { rewrite decode_TTuple. reflexivity. }
  split; [reflexivity|]. split; [reflexivity|]. split; [simpl; lia|].
  split; [exact I|]. split; [reflexivity|]. split; [exact Hraise|].
  intros H.
  specialize (H [] (VList [VInt 1]) [VInt 1] [] [] eq_refl eq_refl
                (Nat.lt_0_succ 0) I).
  rewrite Hraise in H. discriminate H.
Qed.

(* ------------------------------------------------------------------ *)
(** ** The record strategy *)

Section Record.

Context {builtins : PyBuiltins}.
Variable rec : decoder.

Lemma first_error_as_parameters kw : first_error (as_parameters kw) = None.
Proof. induction kw as [|[p v] kw IH]; simpl; auto. Qed.

Lemma keywords_as_parameters kw : keywords (as_parameters kw) = kw.
Proof. induction kw as [|[p v] kw IH]; simpl; congruence. Qed.

Lemma class_parameters_present items path : forall annotations kw,
  fields_decode rec items path (present_hints items annotations) kw ->
  class_parameters rec items path annotations = Return (as_parameters kw).
Proof.
  induction annotations as [|[p a] annotations IH]; intros kw H.
  - destruct kw; [reflexivity|contradiction].
  - cbn [class_parameters]. unfold present_hints in H. cbn [filter fst] in H.
    destruct (dict_contains p items).
    + destruct kw as [|[q v] kw]; [contradiction|].
      destruct H as (-> & Hv & H). unfold _decode. rewrite Hv. cbn [bind].
      rewrite (IH kw H). reflexivity.
    + apply IH, H.
Qed.

Lemma fields_decode_names items path : forall annotations kw,
  fields_decode rec items path annotations kw ->
  map fst kw = map fst annotations.
Proof.
  induction annotations as [|[p a] annotations IH]; intros [|[q v] kw] H;
    try contradiction; [reflexivity|].
  destruct H as (-> & _ & H). simpl. f_equal. now apply IH.
Qed.

Lemma decode_as_class_present name hints init items path kw :
  fields_decode rec items path (present_hints items hints) kw ->
  decode_as_class rec (TClass name hints init) (VDict items) path
  = construction path (init kw).
Proof.
  intros H. unfold decode_as_class. cbn [hints_of].
  rewrite (class_parameters_present _ _ _ _ H). cbn [bind].
  rewrite first_error_as_parameters, keywords_as_parameters. cbn [call_class].
  destruct (init kw); reflexivity.
Qed.

End Record.

(** C5.  On a record descriptor and a mapping input the strategy decodes
    the hinted fields whose names are keys of the input, each at the path
    extended by its name, and no other field: whatever the recursive call
    [rec] does on the hinted fields that are absent, once the present ones
    decode the constructor is called with exactly the present names and
    their decoded values, and the strategy returns what it constructs.
    When the constructor fails with a [TypeError] the strategy returns an
    [InitializationError] at the current path that carries it.  The last
    two lines are the dispatcher on a record with an optional and with a
    required [age], on an input without [age]. *)
Theorem C5_record_present_fields {builtins : PyBuiltins} (rec : decoder)
    (name : string) (hints : list (string * ty))
    (init : list (string * value) -> init_result)
    (items : list (value * value)) (path : Path) (kw : list (string * value)) :
  fields_decode rec items path (present_hints items hints) kw ->
  decode_as_class rec (TClass name hints init) (VDict items) path
  = construction path (init kw)
  /\ map fst kw = map fst (present_hints items hints)
  /\ Forall (fun p => dict_contains p items = true) (map fst kw)
  /\ (forall e, init kw = InitTypeError e ->
        decode_as_class rec (TClass name hints init) (VDict items) path
        = Return (Error (InitializationError path e)))
  /\ decode Person (VDict [(VStr "name", VStr "Al")]) []
     = Return (Decoded (VObj "Person" [("name", VStr "Al"); ("age", VNone)]))
  /\ decode StrictPerson (VDict [(VStr "name", VStr "Al")]) []
     = Return (Error (InitializationError []
                        (mkTypeError 2 "missing required argument: 'age'"))).
Proof.
  intros H.
  pose proof (@decode_as_class_present rec name hints init items path kw H) as Hc.
  pose proof (@fields_decode_names rec items path _ _ H) as Hn.
  split; [exact Hc|]. split; [exact Hn|]. split.
  { rewrite Hn. rewrite Forall_forall. intros p Hp.
    apply in_map_iff in Hp. destruct Hp as ([q a] & <- & Hin).
    unfold present_hints in Hin. apply filter_In in Hin. apply Hin. }
  split; [intros e He; rewrite Hc, He; reflexivity|].
  split; unfold Person, StrictPerson; rewrite decode_TClass; vm_compute; reflexivity.
Qed.

Lemma C5_record_present_fields_witness :
  decode_as_class decode StrictPerson (VDict [(VStr "name", VStr "Al")]) ["k"]
  = Return (Error (InitializationError ["k"]
                     (mkTypeError 2 "missing required argument: 'age'"))).
Proof.
  unfold StrictPerson.
  apply (@C5_record_present_fields tree_builtins decode "StrictPerson"
           [("name", TStr); ("age", TUnion [TInt; TNoneType])] StrictPerson_init
           [(VStr "name", VStr "Al")] ["k"] [("name", VStr "Al")]).
  - vm_compute. auto.
  - reflexivity.
Defined.

(* ------------------------------------------------------------------ *)
(** ** The mapping strategy *)

Section Mapping.

Context {builtins : PyBuiltins}.
Variable rec : decoder.

(** Over a prefix of entries that decode and store, the loop moves on with
    the dict built so far. *)
Lemma dict_loop_prefix K V path rest : forall pre pairs dict_decoded stored,
  items_decode rec K V path pre pairs ->
  insert_all dict_decoded pairs = Return stored ->
  dict_loop rec K V (pre ++ rest) path dict_decoded
  = dict_loop rec K V rest path stored.
Proof.
  induction pre as [|[key element] pre IH]; intros pairs acc stored Hdec Hins.
  - destruct pairs; [|contradiction]. simpl in Hins. now inversion Hins.
  - destruct pairs as [|[k v] pairs]; [contradiction|].
    destruct Hdec as (Hv & Hk & Hdec). cbn [insert_all] in Hins.
    cbn [app dict_loop]. rewrite Hv. cbn [bind]. rewrite Hk. cbn [bind].
    destruct (dict_setitem acc k v) as [acc'|e]; [|discriminate].
    cbn [bind] in *. now apply IH with pairs.
Qed.

Lemma dict_loop_all K V path : forall items pairs dict_decoded,
  items_decode rec K V path items pairs ->
  dict_loop rec K V items path dict_decoded
  = bind (insert_all dict_decoded pairs) (fun d => Return (Decoded (VDict d))).
Proof.
  induction items as [|[key element] items IH]; intros pairs acc Hdec.
  - destruct pairs; [reflexivity|contradiction].
  - destruct pairs as [|[k v] pairs]; [contradiction|].
    destruct Hdec as (Hv & Hk & Hdec).
    cbn [dict_loop insert_all]. rewrite Hv. cbn [bind]. rewrite Hk. cbn [bind].
    destruct (dict_setitem acc k v) as [acc'|e]; [|reflexivity].
    cbn [bind]. now apply IH.
Qed.

End Mapping.

(** C6.  On a mapping descriptor with key descriptor [K] and value
    descriptor [V] and a mapping input, the strategy goes through the
    entries in the order of the input.  For each entry it decodes the value
    against [V] at the path extended by the text form of the entry's key,
    then the key against [K] at the same path, and stores the decoded key
    with the decoded value.  When every entry decodes, the result is the
    dict these stores build.  When the entries before one decode and are
    stored and the value of that one fails, its error is returned whatever
    the decoding of its key would give; when its value decodes and its key
    fails, the error of the key is returned; in both cases nothing after
    that entry matters.  For a text key the path is extended by the key
    itself.  This holds for any recursive call [rec], and [decode] is
    one. *)
Theorem C6_mapping_order {builtins : PyBuiltins} (rec : decoder) (K V : ty)
    (items : list (value * value)) (path : Path) :
  (forall pairs,
     items_decode rec K V path items pairs ->
     decode_as_dict rec (TDict [K; V]) (VDict items) path
     = bind (insert_all [] pairs) (fun d => Return (Decoded (VDict d))))
  /\ (forall pre key element post pairs stored e,
        items = pre ++ (key, element) :: post ->
        items_decode rec K V path pre pairs ->
        insert_all [] pairs = Return stored ->
        rec V element (path ++ [py_str key]) = Return (Failed e) ->
        decode_as_dict rec (TDict [K; V]) (VDict items) path = Return (Failed e))
  /\ (forall pre key element post pairs stored v e,
        items = pre ++ (key, element) :: post ->
        items_decode rec K V path pre pairs ->
        insert_all [] pairs = Return stored ->
        rec V element (path ++ [py_str key]) = Return (Decoded v) ->
        rec K key (path ++ [py_str key]) = Return (Failed e) ->
        decode_as_dict rec (TDict [K; V]) (VDict items) path = Return (Failed e))
  /\ (forall s, path ++ [py_str (VStr s)] = path ++ [s]).
Proof.
  split; [|split; [|split]].
  - intros pairs H. unfold decode_as_dict. cbn [origin_of args_of].
    now apply dict_loop_all.
  - intros pre key element post pairs stored e -> Hdec Hins Hv.
    unfold decode_as_dict. cbn [origin_of args_of].
    rewrite (@dict_loop_prefix _ rec K V path _ pre pairs [] stored Hdec Hins).
    cbn [dict_loop]. rewrite Hv. reflexivity.
  - intros pre key element post pairs stored v e -> Hdec Hins Hv Hk.
    unfold decode_as_dict. cbn [origin_of args_of].
    rewrite (@dict_loop_prefix _ rec K V path _ pre pairs [] stored Hdec Hins).
    cbn [dict_loop]. rewrite Hv. cbn [bind]. rewrite Hk. reflexivity.
  - intros s. now rewrite py_str_str.
Qed.

Lemma C6_mapping_order_witness :
  decode_as_dict decode (TDict [TStr; TInt])
    (VDict [(VStr "a", VInt 1); (VStr "b", VInt 2)]) ["k"]
  = Return (Decoded (VDict [(VStr "a", VInt 1); (VStr "b", VInt 2)]))
  /\ decode_as_dict decode (TDict [TInt; TInt])
       (VDict [(VStr "a", VInt 1); (VStr "b", VStr "z"); (VStr "c", VInt 3)]) ["k"]
     = Return (Error (TypeMismatch ["k"; "a"]))
  /\ decode_as_dict decode (TDict [TStr; TInt])
       (VDict [(VStr "a", VInt 1); (VStr "b", VStr "z"); (VStr "c", VInt 3)]) ["k"]
     = Return (Error (TypeMismatch ["k"; "b"])).
Proof.
  split; [|split].
  - apply (proj1 (@C6_mapping_order tree_builtins decode TStr TInt
                    [(VStr "a", VInt 1); (VStr "b", VInt 2)] ["k"])
             [(VStr "a", VInt 1); (VStr "b", VInt 2)]).
    vm_compute. auto.
  - apply (proj1 (proj2 (proj2 (@C6_mapping_order tree_builtins decode TInt TInt
                    [(VStr "a", VInt 1); (VStr "b", VStr "z"); (VStr "c", VInt 3)] ["k"])))
             [] (VStr "a") (VInt 1) [(VStr "b", VStr "z"); (VStr "c", VInt 3)]
             [] [] (VInt 1) (mkDecodingError (TypeMismatch ["k"; "a"])));
      try reflexivity; vm_compute; auto.
  - apply (proj1 (proj2 (@C6_mapping_order tree_builtins decode TStr TInt
                    [(VStr "a", VInt 1); (VStr "b", VStr "z"); (VStr "c", VInt 3)] ["k"]))
             [(VStr "a", VInt 1)] (VStr "b") (VStr "z") [(VStr "c", VInt 3)]
             [(VStr "a", VInt 1)] [(VStr "a", VInt 1)]
             (mkDecodingError (TypeMismatch ["k"; "b"])));
      try reflexivity; vm_compute; auto.
Defined.

(* ------------------------------------------------------------------ *)
(** ** The path reaches the errors only *)

Lemma reason_shift_here (p p' : Path) :
  reason_shift p p' (TypeMismatch p) (TypeMismatch p')
  /\ reason_shift p p' (UnsupportedDecoding p) (UnsupportedDecoding p')
  /\ forall u, reason_shift p p' (InitializationError p u) (InitializationError p' u).
Proof.
  repeat split; try (exists []; now rewrite !app_nil_r).
Qed.

Lemma reason_shift_extend (p p' : Path) (x : string) (r r' : FailureReason) :
  reason_shift (p ++ [x]) (p' ++ [x]) r r' -> reason_shift p p' r r'.
Proof.
  destruct r, r'; simpl; try contradiction.
  - intros (s & -> & ->). exists (x :: s). now rewrite <- !app_assoc.
  - intros (s & -> & ->). exists (x :: s). now rewrite <- !app_assoc.
  - intros (Hu & s & -> & ->). split; [exact Hu|].
    exists (x :: s). now rewrite <- !app_assoc.
Qed.

Lemma reason_shift_kind (p p' : Path) (r r' : FailureReason) :
  reason_shift p p' r r' -> is_UnsupportedDecoding r = is_UnsupportedDecoding r'.
Proof. destruct r, r'; simpl; try contradiction; reflexivity. Qed.

Ltac shift_cases H :=
  match type of H with
  | shifted _ _ ?o ?o' =>
      destruct o as [[?v|?e]|?x], o' as [[?v'|?e']|?x'];
      cbn [shifted] in H; try contradiction
  end.

Section PathBlind.

Context {builtins : PyBuiltins}.
Variable rec : decoder.
Hypothesis rec_blind : path_blind rec.

Lemma decode_as_primitive_blind type_ json p p' :
  shifted p p' (decode_as_primitive type_ json p) (decode_as_primitive type_ json p').
Proof.
  destruct (reason_shift_here p p') as (Hm & Hu & _).
  unfold decode_as_primitive. destruct (is_float type_).
  - destruct (type_of json); try exact Hm;
      (destruct (py_float json); cbn [bind shifted]; reflexivity).
  - destruct (primitive_class type_).
    + destruct (pyclass_eqb _ _); [reflexivity|exact Hm].
    + destruct (supertype_of type_); [|exact Hu].
      destruct (isinstance json p0); [|exact Hm].
      destruct (call_scalar type_ json); reflexivity.
Qed.

Lemma decode_as_any_blind type_ json p p' :
  shifted p p' (decode_as_any type_ json p) (decode_as_any type_ json p').
Proof.
  unfold decode_as_any. destruct (is_Any type_); [reflexivity|].
  exact (proj1 (proj2 (reason_shift_here p p'))).
Qed.

Lemma union_loop_blind json p p' : forall args decoded decoded',
  match decoded, decoded' with
  | None, None => True
  | Some d, Some d' => shifted p p' (Return d) (Return d')
  | _, _ => False
  end ->
  shifted p p' (union_loop rec args json p decoded) (union_loop rec args json p' decoded').
Proof.
  induction args as [|t args IH]; intros decoded decoded' Hd.
  - destruct decoded, decoded'; try contradiction; [exact Hd|reflexivity].
  - cbn [union_loop]. pose proof (rec_blind t json p p') as Hs. shift_cases Hs;
      cbn [bind]; [exact Hs| |exact Hs].
    apply IH. exact Hs.
Qed.

Lemma decode_as_union_blind type_ json p p' :
  shifted p p' (decode_as_union rec type_ json p) (decode_as_union rec type_ json p').
Proof.
  destruct (reason_shift_here p p') as (_ & Hu & _).
  unfold decode_as_union. destruct (origin_of type_) as [[| | |]|]; try exact Hu.
  destruct (existsb is_TypeVar (args_of type_)); [exact Hu|].
  now apply union_loop_blind.
Qed.

Lemma tuple_loop_blind p p' : forall elements g index list_decoded,
  shifted p p' (tuple_loop rec g elements p index list_decoded)
               (tuple_loop rec g elements p' index list_decoded).
Proof.
  induction elements as [|e elements IH]; intros g index acc; cbn [tuple_loop];
    destruct (iter_args_next g) as [[[t g']|]|x]; cbn [bind]; try reflexivity.
  pose proof (rec_blind t e (p ++ [str_of_index index]) (p' ++ [str_of_index index]))
    as Hs.
  shift_cases Hs; cbn [bind]; [|now apply reason_shift_extend in Hs|exact Hs].
  subst. apply IH.
Qed.

Lemma decode_as_tuple_blind type_ json p p' :
  shifted p p' (decode_as_tuple rec type_ json p) (decode_as_tuple rec type_ json p').
Proof.
  destruct (reason_shift_here p p') as (Hm & Hu & _).
  unfold decode_as_tuple. destruct (origin_of type_) as [[| | |]|]; try exact Hu.
  assert (H : shifted p p'
    (bind (py_len json) (fun length =>
       bind (_required_length (args_of type_)) (fun required =>
         if (required >? length)%Z then Return (Error (TypeMismatch p))
         else bind (py_iter json) (fun elements =>
                tuple_loop rec (_iter_args (args_of type_)) elements p 0 []))))
    (bind (py_len json) (fun length =>
       bind (_required_length (args_of type_)) (fun required =>
         if (required >? length)%Z then Return (Error (TypeMismatch p'))
         else bind (py_iter json) (fun elements =>
                tuple_loop rec (_iter_args (args_of type_)) elements p' 0 []))))).
  { destruct (py_len json) as [n|x]; [|reflexivity]. cbn [bind].
    destruct (_required_length (args_of type_)) as [r|x]; [|reflexivity]. cbn [bind].
    destruct (r >? n)%Z; [exact Hm|].
    destruct (py_iter json) as [elements|x]; [|reflexivity]. apply tuple_loop_blind. }
  destruct json; try exact H. exact Hm.
Qed.

Lemma list_loop_blind E p p' : forall elements index list_decoded,
  shifted p p' (list_loop rec E elements p index list_decoded)
               (list_loop rec E elements p' index list_decoded).
Proof.
  induction elements as [|e elements IH]; intros index acc; cbn [list_loop];
    [reflexivity|].
  pose proof (rec_blind E e (p ++ [str_of_index index]) (p' ++ [str_of_index index]))
    as Hs.
  shift_cases Hs; cbn [bind]; [|now apply reason_shift_extend in Hs|exact Hs].
  subst. apply IH.
Qed.

Lemma decode_as_list_blind type_ json p p' :
  shifted p p' (decode_as_list rec type_ json p) (decode_as_list rec type_ json p').
Proof.
  destruct (reason_shift_here p p') as (Hm & Hu & _).
  unfold decode_as_list. destruct (origin_of type_) as [[| | |]|]; try exact Hu.
  destruct (args_of type_) as [|E args]; [reflexivity|].
  destruct (negb (is_iterable json)); [exact Hm|].
  destruct (py_iter json) as [elements|x]; [|reflexivity]. apply list_loop_blind.
Qed.

Lemma dict_loop_blind K V p p' : forall items dict_decoded,
  shifted p p' (dict_loop rec K V items p dict_decoded)
               (dict_loop rec K V items p' dict_decoded).
Proof.
  induction items as [|[key element] items IH]; intros acc; cbn [dict_loop];
    [reflexivity|].
  pose proof (rec_blind V element (p ++ [py_str key]) (p' ++ [py_str key])) as Hv.
  shift_cases Hv; cbn [bind]; [|now apply reason_shift_extend in Hv|exact Hv].
  subst.
  pose proof (rec_blind K key (p ++ [py_str key]) (p' ++ [py_str key])) as Hk.
  shift_cases Hk; cbn [bind]; [|now apply reason_shift_extend in Hk|exact Hk].
  subst. destruct (dict_setitem acc v'0 v') as [acc'|x]; [|reflexivity]. apply IH.
Qed.

Lemma decode_as_dict_blind type_ json p p' :
  shifted p p' (decode_as_dict rec type_ json p) (decode_as_dict rec type_ json p').
Proof.
  destruct (reason_shift_here p p') as (_ & Hu & _).
  unfold decode_as_dict. destruct json; try exact Hu.
  destruct (origin_of type_) as [[| | |]|]; try exact Hu.
  destruct (args_of type_) as [|K [|V [|? ?]]]; try reflexivity. apply dict_loop_blind.
Qed.

(** The parameters of a record at the two paths: both calls raise the
    same, or both return, with the same keywords when no field failed and
    with shifted first errors otherwise. *)
Lemma class_parameters_blind items p p' : forall annotations,
  match class_parameters rec items p annotations,
        class_parameters rec items p' annotations with
  | Return ps, Return ps' =>
      match first_error ps, first_error ps' with
      | None, None => keywords ps = keywords ps'
      | Some e, Some e' => reason_shift p p' (reason e) (reason e')
      | _, _ => False
      end
  | Raise x, Raise x' => x = x'
  | _, _ => False
  end.
Proof.
  induction annotations as [|[name a] annotations IH]; cbn [class_parameters];
    [reflexivity|].
  destruct (dict_contains name items); [|exact IH]. unfold _decode.
  pose proof (rec_blind a (dict_get name items) (p ++ [name]) (p' ++ [name])) as Hs.
  shift_cases Hs; cbn [bind]; [| |exact Hs].
  - subst.
    destruct (class_parameters rec items p annotations) as [ps|x],
             (class_parameters rec items p' annotations) as [ps'|x'];
      cbn [bind]; try contradiction; [|exact IH].
    cbn [first_error keywords].
    destruct (first_error ps), (first_error ps'); try contradiction; [exact IH|].
    now rewrite IH.
  - apply reason_shift_extend in Hs.
    destruct (class_parameters rec items p annotations) as [ps|x],
             (class_parameters rec items p' annotations) as [ps'|x'];
      cbn [bind]; try contradiction; [exact Hs|exact IH].
Qed.

Lemma decode_as_class_blind type_ json p p' :
  shifted p p' (decode_as_class rec type_ json p) (decode_as_class rec type_ json p').
Proof.
  destruct (reason_shift_here p p') as (_ & Hu & Hi).
  unfold decode_as_class. destruct json; try exact Hu.
  destruct (hints_of type_) as [annotations|]; [|exact Hu].
  pose proof (class_parameters_blind d p p' annotations) as H.
  destruct (class_parameters rec d p annotations) as [ps|x],
           (class_parameters rec d p' annotations) as [ps'|x'];
    cbn [bind]; try contradiction; [|exact H].
  destruct (first_error ps), (first_error ps'); try contradiction; [exact H|].
  rewrite H. destruct (call_class type_ (keywords ps')); [reflexivity|apply Hi|reflexivity].
Qed.

Lemma decode_loop_blind type_ json p p' : forall ds best best',
  Forall (fun d : decoder => shifted p p' (d type_ json p) (d type_ json p')) ds ->
  shifted p p' (Return best) (Return best') ->
  shifted p p' (decode_loop ds best type_ json p) (decode_loop ds best' type_ json p').
Proof.
  induction ds as [|d ds IH]; intros best best' Hds Hbest; [exact Hbest|].
  inversion Hds as [|? ? Hd Hds']; subst. cbn [decode_loop].
  shift_cases Hd; cbn [bind]; [exact Hd| |exact Hd].
  rewrite (reason_shift_kind _ _ _ _ Hd).
  destruct (is_UnsupportedDecoding (reason e')); cbn [negb]; apply IH; auto.
Qed.

Lemma decode_body_blind : path_blind (decode_body rec).
Proof.
  intros type_ json p p'. unfold decode_body. apply decode_loop_blind.
  - unfold decoders. repeat apply Forall_cons; try apply Forall_nil.
    + apply decode_as_union_blind.
    + apply decode_as_tuple_blind.
    + apply decode_as_list_blind.
    + apply decode_as_primitive_blind.
    + apply decode_as_class_blind.
    + apply decode_as_dict_blind.
    + apply decode_as_any_blind.
  - exact (proj1 (proj2 (reason_shift_here p p'))).
Qed.

End PathBlind.

Lemma decode_within_blind {builtins : PyBuiltins} (n : nat) : path_blind (decode_within n).
Proof.
  induction n as [|n IH]; [intros type_ json p p'; reflexivity|].
  cbn [decode_within]. now apply decode_body_blind.
Qed.

Lemma decode_blind {builtins : PyBuiltins} : path_blind decode.
Proof. intros type_ json p p'. unfold decode. apply decode_within_blind. Qed.

(* ------------------------------------------------------------------ *)
(** ** Decoding again what was decoded *)

Lemma settle_decoded (path : Path) (m : res outcome) (R : value) :
  bind m (fun result => Return (settle path result)) = Return (Decoded R) ->
  m = Return (Decoded R).
Proof.
  destruct m as [[v|e]|e]; cbn [bind settle]; try discriminate; [auto|].
  destruct (is_UnsupportedDecoding (reason e)); discriminate.
Qed.





Section Again.

Context {builtins : PyBuiltins}.















Lemma decode_as_tuple_inv (rec : decoder) args json path R :
  decode_as_tuple rec (TTuple args) json path = Return (Decoded R) ->
  args <> []
  /\ exists elements,
       py_iter json = Return elements
       /\ (required_minimum args <= Z.of_nat (List.length elements))%Z
       /\ tuple_loop rec (_iter_args args) elements path 0 [] = Return (Decoded R).
Proof.
  unfold decode_as_tuple. cbn [origin_of args_of]. intros H.
  assert (Hlen : exists n, py_len json = Return n).
  { destruct json; try discriminate H; simpl; eauto. }
  destruct Hlen as [n Hlen].
  assert (H' : bind (_required_length args) (fun required =>
                 if (required >? n)%Z then Return (Error (TypeMismatch path))
                 else bind (py_iter json) (fun elements =>
                        tuple_loop rec (_iter_args args) elements path 0 []))
               = Return (Decoded R)).
  { destruct json; try discriminate Hlen; rewrite Hlen in H; exact H. }
  clear H. assert (Hne : args <> []).
  { intros ->. discriminate H'. }
  split; [exact Hne|].
  rewrite (required_length_minimum Hne) in H'. cbn [bind] in H'.
  destruct (Z.gtb_spec (required_minimum args) n); [discriminate|].
  destruct (py_len_iter _ Hlen) as (elements & Hiter & ->).
  rewrite Hiter in H'. exists elements. auto.
Qed.



Lemma decode_text_key K s path :
  text_key_type K -> decode K (VStr s) path = Return (Decoded (VStr s)).
Proof.
  intros [->| ->].
  - rewrite (decode_scalar TStr (VStr s) path eq_refl eq_refl eq_refl). reflexivity.
  - apply decode_TAny.
Qed.

Lemma dict_store_fresh s v d :
  dict_contains s d = false ->
  dict_store (is_str_key s) (VStr s) v d = d ++ [(VStr s, v)].
Proof.
  induction d as [|[k' v'] d IH]; simpl; intros H; [reflexivity|].
  apply orb_false_iff in H. destruct H as [H1 H2]. rewrite H1, (IH H2). reflexivity.
Qed.

Lemma dict_contains_app s d1 d2 :
  dict_contains s (d1 ++ d2) = dict_contains s d1 || dict_contains s d2.
Proof. apply existsb_app. Qed.

Lemma fresh_step s v element rest acc :
  negb (dict_contains s rest) = true ->
  (forall s', dict_contains s' ((VStr s, element) :: rest) = true ->
              dict_contains s' acc = false) ->
  dict_contains s acc = false
  /\ forall s', dict_contains s' rest = true ->
                dict_contains s' (acc ++ [(VStr s, v)]) = false.
Proof.
  intros Hs Hfresh. split.
  - apply Hfresh. simpl. now rewrite String.eqb_refl.
  - intros s' Hs'. rewrite dict_contains_app. apply orb_false_iff. split.
    + apply Hfresh. simpl. rewrite Hs'. apply orb_true_r.
    + simpl. rewrite orb_false_r. destruct (String.eqb_spec s s') as [->|]; [|reflexivity].
      rewrite Hs' in Hs. discriminate.
Qed.


















End Again.




(** The sum type of that descriptor is not consistent with its order: its
    first alternative refuses [["a", 5]], which the second decodes to
    [("a",)], and decodes the representation [["a"]] of that result to
    another value. *)
Lemma sum_of_list_and_tuple_not_consistent :
  ~ sum_consistent [TList [TStr]; TTuple [TStr]].
Proof.
  intros H.
  specialize (H [TList [TStr]] (TTuple [TStr]) [] (VList [VStr "a"; VInt 5]) []
                (VTuple [VStr "a"]) [] eq_refl eq_refl).
  assert (H1 : decode (TList [TStr]) (VList [VStr "a"; VInt 5]) []
               = Return (Error (TypeMismatch ["1"])))
    by (rewrite decode_TList; vm_compute; reflexivity).
  assert (H2 : decode (TTuple [TStr]) (VList [VStr "a"; VInt 5]) []
               = Return (Decoded (VTuple [VStr "a"])))
    by (rewrite decode_TTuple; vm_compute; reflexivity).
  assert (H3 : decode (TList [TStr]) (to_tree (VTuple [VStr "a"])) []
               = Return (Decoded (VList [VStr "a"])))
    by (rewrite decode_TList; vm_compute; reflexivity).
  specialize (H (Forall_cons _ (ex_intro _ _ H1) (Forall_nil _)) H2).
  inversion H as [|? ? [[e He]|He] _]; subst; rewrite H3 in He; discriminate He.
Qed.

(* ------------------------------------------------------------------ *)
(** ** Where decoding always returns, and the examples of the specification *)

(** On a descriptor of the exact scalar set and on the wildcard no call
    can raise: the dispatcher returns an outcome on every input. *)
Lemma decode_returns_on_exact_scalars {builtins : PyBuiltins} (type_ : ty)
    (json : value) (path : Path) :
  (exists cls, primitive_class type_ = Some cls) \/ type_ = TAny ->
  exists result, decode type_ json path = Return result.
Proof.
  intros [[cls Hp]| ->].
  - destruct (primitive_is_scalar _ Hp) as (Ho & Hh & Ha & Hf).
    rewrite (decode_scalar type_ json path Ho Hh Ha).
    unfold decode_as_primitive. rewrite Hf, Hp.
    destruct (pyclass_eqb (type_of json) cls); eexists; reflexivity.
  - rewrite decode_TAny. eauto.
Qed.

Example float_coercion :
  decode TFloat (VInt 3) []
  = Return (Decoded (VFloat (SpecFloat.S754_finite false 6755399441055744 (-51))))
  /\ decode TFloat (VStr "3") [] = Return (Error (TypeMismatch [])).
Proof. split; vm_compute; reflexivity. Qed.

Example homogeneous_sequence :
  decode (TList [TInt]) (VList [VInt 1; VInt 2; VInt 3]) []
  = Return (Decoded (VList [VInt 1; VInt 2; VInt 3]))
  /\ decode (TList [TInt]) (VList [VInt 1; VStr "x"; VInt 3]) []
     = Return (Error (TypeMismatch ["1"])).
Proof. split; vm_compute; reflexivity. Qed.

Example sum_type_order :
  decode (TUnion [TInt; TStr]) (VStr "x") [] = Return (Decoded (VStr "x")).
Proof. vm_compute. reflexivity. Qed.

Example text_mapping :
  decode (TDict [TStr; TInt]) (VDict [(VStr "a", VInt 1); (VStr "b", VInt 2)]) []
  = Return (Decoded (VDict [(VStr "a", VInt 1); (VStr "b", VInt 2)])).
Proof. vm_compute. reflexivity. Qed.

(** Other calls that raise past the engine: [args[-1]] on the empty
    descriptor list, and the unbound [decoded] of a sum type without
    alternatives. *)
Example empty_descriptor_lists {builtins : PyBuiltins} :
  decode (TTuple []) (VList []) [] = Raise ExIndexError
  /\ decode (TUnion []) VNone [] = Raise ExUnboundLocalError.
Proof. split; [rewrite decode_TTuple|rewrite decode_TUnion]; reflexivity. Qed.

(* ================================================================== *)
(** * Further properties of the strategies *)

(* ------------------------------------------------------------------ *)
(** ** The homogeneous sequence strategy *)

Section Homogeneous.

Context {builtins : PyBuiltins}.
Variable rec : decoder.

Lemma list_loop_prefix E path rest : forall pre vs index list_decoded,
  decodes_each rec path index (repeat E (List.length pre)) pre vs ->
  list_loop rec E (pre ++ rest) path index list_decoded
  = list_loop rec E rest path (index + List.length pre) (list_decoded ++ vs).
Proof.
  induction pre as [|e pre IH]; intros vs index acc H.
  - destruct vs; [|contradiction]. cbn [app List.length].
    now rewrite Nat.add_0_r, app_nil_r.
  - destruct vs as [|v vs]; [contradiction|]. cbn [List.length repeat] in H.
    destruct H as [He H]. cbn [app list_loop]. rewrite He. cbn [bind].
    rewrite (IH vs (S index) (acc ++ [v]) H), <- app_assoc. cbn [List.length app].
    now rewrite Nat.add_succ_r.
Qed.

Lemma list_loop_each E path elements vs index list_decoded :
  decodes_each rec path index (repeat E (List.length elements)) elements vs ->
  list_loop rec E elements path index list_decoded
  = Return (Decoded (VList (list_decoded ++ vs))).
Proof.
  intros H. rewrite <- (app_nil_r elements) at 1.
  rewrite (@list_loop_prefix E path [] elements vs index list_decoded H). reflexivity.
Qed.

Lemma decode_as_list_each E rest json elements vs path :
  py_iter json = Return elements ->
  decodes_each rec path 0 (repeat E (List.length elements)) elements vs ->
  decode_as_list rec (TList (E :: rest)) json path = Return (Decoded (VList vs)).
Proof.
  intros Hiter H. unfold decode_as_list. cbn [origin_of args_of].
  assert (Hit : is_iterable json = true) by (destruct json; try discriminate; reflexivity).
  rewrite Hit, Hiter. cbn [negb bind].
  exact (@list_loop_each E path elements vs 0 [] H).
Qed.

Lemma decode_as_list_failure E rest json pre element post vs e path :
  py_iter json = Return (pre ++ element :: post) ->
  decodes_each rec path 0 (repeat E (List.length pre)) pre vs ->
  rec E element (path ++ [str_of_index (List.length pre)]) = Return (Failed e) ->
  decode_as_list rec (TList (E :: rest)) json path = Return (Failed e).
Proof.
  intros Hiter H He. unfold decode_as_list. cbn [origin_of args_of].
  assert (Hit : is_iterable json = true) by (destruct json; try discriminate; reflexivity).
  rewrite Hit, Hiter. cbn [negb bind].
  rewrite (@list_loop_prefix E path (element :: post) pre vs 0 [] H).
  cbn [list_loop Nat.add]. rewrite He. reflexivity.
Qed.

End Homogeneous.

(** X1.  On a sequence descriptor with element descriptor [E] and an
    iterable input, when every element decodes against [E] at the path
    extended by its index, the dispatcher returns the list of the decoded
    elements, in the order and in the number of the input. *)
Theorem X1_list_all_elements {builtins : PyBuiltins} (E : ty) (rest : list ty)
    (json : value) (elements vs : list value) (path : Path) :
  py_iter json = Return elements ->
  decodes_each decode path 0 (repeat E (List.length elements)) elements vs ->
  decode_as_list decode (TList (E :: rest)) json path = Return (Decoded (VList vs))
  /\ decode (TList (E :: rest)) json path = Return (Decoded (VList vs))
  /\ List.length vs = List.length elements.
Proof.
  intros Hiter H.
  pose proof (@decode_as_list_each decode E rest json elements vs path Hiter H) as Hl.
  split; [exact Hl|]. split; [rewrite decode_TList, Hl; reflexivity|].
  destruct (decodes_each_length _ _ _ _ _ _ H) as [H1 H2]. congruence.
Qed.

Lemma X1_list_all_elements_witness :
  decode (TList [TInt]) (VTuple [VInt 1; VInt 2]) ["k"]
  = Return (Decoded (VList [VInt 1; VInt 2])).
Proof.
  apply (@X1_list_all_elements tree_builtins TInt [] (VTuple [VInt 1; VInt 2])
           [VInt 1; VInt 2] [VInt 1; VInt 2] ["k"]).
  - reflexivity.
  - vm_compute. auto.
Defined.

(** X2.  The sequence strategy stops at the first element that fails: when
    the elements before it decode, its error is returned whatever follows
    it.  The dispatcher returns that error too, unless it is an
    [UnsupportedDecoding], which the dispatcher reports at its own path. *)
Theorem X2_list_first_failure {builtins : PyBuiltins} (E : ty) (rest : list ty)
    (json : value) (pre : list value) (element : value) (post vs : list value)
    (e : DecodingError) (path : Path) :
  py_iter json = Return (pre ++ element :: post) ->
  decodes_each decode path 0 (repeat E (List.length pre)) pre vs ->
  decode E element (path ++ [str_of_index (List.length pre)]) = Return (Failed e) ->
  decode_as_list decode (TList (E :: rest)) json path = Return (Failed e)
  /\ decode (TList (E :: rest)) json path = Return (settle path (Failed e)).
Proof.
  intros Hiter H He.
  pose proof (@decode_as_list_failure decode E rest json pre element post vs e path
                Hiter H He) as Hl.
  split; [exact Hl|]. rewrite decode_TList, Hl. reflexivity.
Qed.

Lemma X2_list_first_failure_witness :
  decode (TList [TInt]) (VList [VInt 1; VStr "x"; VNone]) ["k"]
  = Return (Error (TypeMismatch ["k"; "1"])).
Proof.
  apply (@X2_list_first_failure tree_builtins TInt [] (VList [VInt 1; VStr "x"; VNone])
           [VInt 1] (VStr "x") [VNone] [VInt 1] (mkDecodingError (TypeMismatch ["k"; "1"]))
           ["k"]).
  - reflexivity.
  - vm_compute. auto.
  - vm_compute. reflexivity.
Defined.

(** X3.  On a sequence descriptor an input that is not iterable (null, a
    boolean, a number, a date, a record instance) is a [TypeMismatch] at
    the current path, from the strategy and from the dispatcher. *)
Theorem X3_list_not_iterable {builtins : PyBuiltins} (rec : decoder) (E : ty)
    (rest : list ty) (json : value) (path : Path) :
  is_iterable json = false ->
  decode_as_list rec (TList (E :: rest)) json path = Return (Error (TypeMismatch path))
  /\ decode (TList (E :: rest)) json path = Return (Error (TypeMismatch path)).
Proof.
  intros Hit.
  assert (H : forall r : decoder,
             decode_as_list r (TList (E :: rest)) json path
             = Return (Error (TypeMismatch path))).
  { intros r. unfold decode_as_list. cbn [origin_of args_of]. now rewrite Hit. }
  split; [apply H|]. rewrite decode_TList, H. reflexivity.
Qed.

Lemma X3_list_not_iterable_witness :
  decode (TList [TInt]) (VInt 5) ["k"] = Return (Error (TypeMismatch ["k"])).
Proof.
  apply (@X3_list_not_iterable tree_builtins decode TInt [] (VInt 5) ["k"]).
  reflexivity.
Defined.

Lemma decodes_each_any {builtins : PyBuiltins} path : forall elements index,
  decodes_each decode path index (repeat TAny (List.length elements)) elements elements.
Proof.
  induction elements as [|e elements IH]; intros index; [exact I|].
  cbn [List.length repeat decodes_each]. split; [apply decode_TAny|apply IH].
Qed.

Lemma decodes_each_text {builtins : PyBuiltins} path : forall (chars : list ascii) index,
  let elements := map (fun c => VStr (String c EmptyString)) chars in
  decodes_each decode path index (repeat TStr (List.length elements)) elements elements.
Proof.
  induction chars as [|c chars IH]; intros index; [exact I|].
  cbn [map List.length repeat decodes_each]. split; [|apply IH].
  rewrite (decode_scalar TStr _ _ eq_refl eq_refl eq_refl). reflexivity.
Qed.

(** X4.  The sequence strategy takes any iterable for a sequence: against
    a sequence of the wildcard an input decodes to the list of what its
    iteration yields, which is the characters of a string, the elements of
    a tuple and the keys of a mapping; against a sequence of text a string
    decodes to the list of its characters. *)
Theorem X4_list_of_iterable {builtins : PyBuiltins} (json : value)
    (elements : list value) (s : string) (path : Path) :
  (py_iter json = Return elements ->
   decode (TList [TAny]) json path = Return (Decoded (VList elements)))
  /\ decode (TList [TStr]) (VStr s) path
     = Return (Decoded (VList (map (fun c => VStr (String c EmptyString))
                                   (list_ascii_of_string s)))).
Proof.
  split.
  - intros Hiter. rewrite decode_TList.
    rewrite (@decode_as_list_each decode TAny [] json elements elements path Hiter
               (decodes_each_any path elements 0)). reflexivity.
  - rewrite decode_TList.
    rewrite (@decode_as_list_each decode TStr [] (VStr s) _ _ path eq_refl
               (decodes_each_text path (list_ascii_of_string s) 0)). reflexivity.
Qed.

Lemma X4_list_of_iterable_witness :
  decode (TList [TAny]) (VDict [(VStr "a", VInt 1); (VStr "b", VInt 2)]) []
  = Return (Decoded (VList [VStr "a"; VStr "b"])).
Proof.
  apply (proj1 (@X4_list_of_iterable tree_builtins
                  (VDict [(VStr "a", VInt 1); (VStr "b", VInt 2)])
                  [VStr "a"; VStr "b"] "" [])).
  reflexivity.
Defined.

(* ------------------------------------------------------------------ *)
(** ** More on the fixed-arity sequence strategy *)

Section Variadic.

Context {builtins : PyBuiltins}.
Variable rec : decoder.

Lemma decodes_each_app path : forall A B index elements vs,
  decodes_each rec path index (A ++ B) elements vs ->
  exists e1 e2 v1 v2,
    elements = e1 ++ e2 /\ vs = v1 ++ v2
    /\ decodes_each rec path index A e1 v1
    /\ decodes_each rec path (index + List.length A) B e2 v2.
Proof.
  induction A as [|a A IH]; intros B index elements vs H.
  - exists [], elements, [], vs. cbn [List.length]. rewrite Nat.add_0_r.
    repeat split; auto.
  - destruct elements as [|e elements], vs as [|v vs]; try contradiction.
    destruct H as [He H]. destruct (IH B (S index) elements vs H)
      as (e1 & e2 & v1 & v2 & -> & -> & H1 & H2).
    exists (e :: e1), e2, (v :: v1), v2. cbn [List.length].
    rewrite Nat.add_succ_r. repeat split; auto.
Qed.

(** Over descriptors that decode, the loop moves on to the rest of the
    descriptor list and of the input, remembering the last descriptor. *)
Lemma tuple_loop_prefix path tail more : forall types elements vs last index list_decoded,
  no_ellipsis types = true ->
  decodes_each rec path index types elements vs ->
  tuple_loop rec (Walking (types ++ tail) last) (elements ++ more) path index list_decoded
  = tuple_loop rec (Walking tail (fold_left (fun _ t => Some t) types last)) more path
      (index + List.length types) (list_decoded ++ vs).
Proof.
  induction types as [|t types IH]; intros elements vs last index acc Hno H.
  - destruct elements, vs; try contradiction. cbn [app List.length fold_left].
    now rewrite Nat.add_0_r, app_nil_r.
  - destruct elements as [|e elements], vs as [|v vs]; try contradiction.
    destruct H as [He H]. cbn [no_ellipsis forallb] in Hno.
    apply andb_true_iff in Hno. destruct Hno as [Ht Hno]. apply negb_true_iff in Ht.
    cbn [app tuple_loop iter_args_next]. rewrite Ht. cbn [bind]. rewrite He. cbn [bind].
    rewrite (IH elements vs (Some t) (S index) (acc ++ [v]) Hno H), <- app_assoc.
    cbn [List.length fold_left app]. now rewrite Nat.add_succ_r.
Qed.

Lemma tuple_loop_repeating T path : forall elements vs index list_decoded,
  decodes_each rec path index (repeat T (List.length elements)) elements vs ->
  tuple_loop rec (Repeating T) elements path index list_decoded
  = Return (Decoded (VTuple (list_decoded ++ vs))).
Proof.
  induction elements as [|e elements IH]; intros vs index acc H.
  - destruct vs; [|contradiction]. now rewrite app_nil_r.
  - destruct vs as [|v vs]; [contradiction|]. cbn [List.length repeat] in H.
    destruct H as [He H]. cbn [tuple_loop iter_args_next bind]. rewrite He. cbn [bind].
    rewrite (IH vs (S index) (acc ++ [v]) H), <- app_assoc. reflexivity.
Qed.

Lemma tuple_loop_marker T tail more path index list_decoded :
  tuple_loop rec (Walking (TEllipsis :: tail) (Some T)) more path index list_decoded
  = tuple_loop rec (Repeating T) more path index list_decoded.
Proof. destruct more; reflexivity. Qed.

Lemma decode_as_tuple_variadic fixed T k json elements vs path :
  no_ellipsis (fixed ++ [T]) = true ->
  py_iter json = Return elements ->
  decodes_each rec path 0 ((fixed ++ [T]) ++ repeat T k) elements vs ->
  decode_as_tuple rec (TTuple (fixed ++ [T; TEllipsis])) json path
  = Return (Decoded (VTuple vs)).
Proof.
  intros Hno Hiter H.
  destruct (@decodes_each_length rec path 0 _ elements vs H) as [Hlen _].
  destruct (@decodes_each_app path (fixed ++ [T]) (repeat T k) 0 elements vs H)
    as (e1 & e2 & v1 & v2 & -> & -> & H1 & H2).
  destruct (@decodes_each_length rec path _ _ e2 v2 H2) as [Hk _].
  rewrite repeat_length in Hk.
  rewrite (@decode_as_tuple_loop rec (fixed ++ [T; TEllipsis]) json (e1 ++ e2) path).
  - unfold _iter_args.
    change (fixed ++ [T; TEllipsis]) with (fixed ++ [T] ++ [TEllipsis]).
    rewrite app_assoc.
    rewrite (@tuple_loop_prefix path [TEllipsis] e2 (fixed ++ [T]) e1 v1 None 0 []
               Hno H1).
    rewrite fold_left_app. cbn [fold_left]. rewrite tuple_loop_marker.
    rewrite <- Hk in H2. exact (tuple_loop_repeating T path e2 v2 _ _ H2).
  - destruct fixed; discriminate.
  - exact Hiter.
  - rewrite required_minimum_variadic. rewrite Hlen, !length_app. lia.
Qed.

Lemma decode_as_tuple_failure types t tail json pre element post vs e path :
  no_ellipsis types = true ->
  is_ellipsis t = false ->
  py_iter json = Return (pre ++ element :: post) ->
  (required_minimum (types ++ t :: tail)
   <= Z.of_nat (List.length (pre ++ element :: post)))%Z ->
  decodes_each rec path 0 types pre vs ->
  rec t element (path ++ [str_of_index (List.length pre)]) = Return (Failed e) ->
  decode_as_tuple rec (TTuple (types ++ t :: tail)) json path = Return (Failed e).
Proof.
  intros Hno Ht Hiter Hle H He.
  destruct (@decodes_each_length rec path 0 types pre vs H) as [Hlen _].
  rewrite (@decode_as_tuple_loop rec (types ++ t :: tail) json
             (pre ++ element :: post) path); [| |exact Hiter|exact Hle].
  - unfold _iter_args.
    rewrite (@tuple_loop_prefix path (t :: tail) (element :: post) types pre vs None 0 []
               Hno H).
    cbn [tuple_loop iter_args_next Nat.add]. rewrite Ht. cbn [bind].
    rewrite <- Hlen, He. reflexivity.
  - destruct types; discriminate.
Qed.

(** The loop on any generator: when the first [S (length pre)] descriptors
    it yields are [tys ++ [t]], the elements [pre] decode against [tys] and
    the next element fails against [t], the loop returns that error. *)
Lemma tuple_loop_take path element post e t :
  forall pre g tys vs index list_decoded,
  iter_args_take (S (List.length pre)) g = Return (tys ++ [t]) ->
  decodes_each rec path index tys pre vs ->
  rec t element (path ++ [str_of_index (index + List.length pre)]) = Return (Failed e) ->
  tuple_loop rec g (pre ++ element :: post) path index list_decoded = Return (Failed e).
Proof.
  induction pre as [|p pre IH]; intros g tys vs index acc Htake Heach He.
  - destruct tys as [|t0 tys]; [|destruct vs; contradiction].
    cbn [iter_args_take List.length app] in Htake. cbn [app tuple_loop].
    destruct (iter_args_next g) as [[[t1 g']|]|err]; cbn [bind] in *; try discriminate.
    injection Htake as ->. rewrite Nat.add_0_r in He. rewrite He. reflexivity.
  - destruct tys as [|t0 tys]; [destruct vs; contradiction|].
    destruct vs as [|v vs]; [contradiction|]. destruct Heach as [Hp Heach].
    cbn [List.length] in Htake, He.
    change (iter_args_take (S (S (List.length pre))) g)
      with (next <- iter_args_next g ;;
            match next with
            | None => Return []
            | Some (type_, g') =>
                types <- iter_args_take (S (List.length pre)) g' ;;
                Return (type_ :: types)
            end) in Htake.
    cbn [app tuple_loop].
    destruct (iter_args_next g) as [[[t1 g']|]|err]; cbn [bind] in *; try discriminate.
    destruct (iter_args_take (S (List.length pre)) g') as [types|err] eqn:Hg';
      cbn [bind] in Htake; [|discriminate].
    injection Htake as -> ->. rewrite Hp. cbn [bind].
    apply (IH g' tys vs (S index) (acc ++ [v]) Hg' Heach).
    replace (S index + List.length pre) with (index + S (List.length pre)) by lia.
    exact He.
Qed.

(** What the generator yields: the written descriptors one after the
    other, and after a last written descriptor [T] followed by the marker,
    [T] again as often as asked. *)
Lemma iter_args_take_written tail t : forall types last,
  no_ellipsis types = true -> is_ellipsis t = false ->
  iter_args_take (S (List.length types)) (Walking (types ++ t :: tail) last)
  = Return (types ++ [t]).
Proof.
  induction types as [|x types IH]; intros last Hno Ht.
  - cbn [List.length app iter_args_take iter_args_next]. rewrite Ht. reflexivity.
  - cbn [no_ellipsis forallb] in Hno. apply andb_true_iff in Hno.
    destruct Hno as [Hx Hno]. apply negb_true_iff in Hx.
    change (iter_args_take (S (List.length (x :: types)))
              (Walking ((x :: types) ++ t :: tail) last))
      with (next <- iter_args_next (Walking (x :: types ++ t :: tail) last) ;;
            match next with
            | None => Return []
            | Some (type_, g') =>
                types' <- iter_args_take (S (List.length types)) g' ;;
                Return (type_ :: types')
            end).
    cbn [iter_args_next]. rewrite Hx. cbn [bind].
    rewrite (IH (Some x) Hno Ht). reflexivity.
Qed.

Lemma iter_args_take_repeating T : forall k,
  iter_args_take k (Repeating T) = Return (repeat T k).
Proof.
  induction k as [|k IH]; [reflexivity|].
  cbn [iter_args_take iter_args_next bind repeat]. rewrite IH. reflexivity.
Qed.

Lemma iter_args_take_variadic T k : forall fixed last,
  no_ellipsis (fixed ++ [T]) = true ->
  iter_args_take (List.length fixed + 1 + k) (Walking (fixed ++ [T; TEllipsis]) last)
  = Return (fixed ++ T :: repeat T k).
Proof.
  induction fixed as [|x fixed IH]; intros last Hno.
  - cbn [app no_ellipsis forallb] in Hno. apply andb_true_iff in Hno.
    destruct Hno as [HT _]. apply negb_true_iff in HT.
    cbn [List.length app Nat.add iter_args_take iter_args_next]. rewrite HT. cbn [bind].
    destruct k as [|k]; [reflexivity|].
    cbn [iter_args_take iter_args_next is_ellipsis bind repeat].
    rewrite iter_args_take_repeating. reflexivity.
  - cbn [app no_ellipsis forallb] in Hno. apply andb_true_iff in Hno.
    destruct Hno as [Hx Hno]. apply negb_true_iff in Hx.
    cbn [List.length app Nat.add iter_args_take iter_args_next]. rewrite Hx. cbn [bind].
    rewrite (IH (Some x) Hno). reflexivity.
Qed.

Lemma iter_args_take_nonempty n args tys t :
  iter_args_take n (_iter_args args) = Return (tys ++ [t]) -> args <> [].
Proof.
  intros H ->. destruct n; cbn in H; destruct tys; discriminate.
Qed.

Lemma decode_as_tuple_first_failure args tys t json pre element post vs e path :
  py_iter json = Return (pre ++ element :: post) ->
  (required_minimum args <= Z.of_nat (List.length (pre ++ element :: post)))%Z ->
  iter_args_take (S (List.length pre)) (_iter_args args) = Return (tys ++ [t]) ->
  decodes_each rec path 0 tys pre vs ->
  rec t element (path ++ [str_of_index (List.length pre)]) = Return (Failed e) ->
  decode_as_tuple rec (TTuple args) json path = Return (Failed e).
Proof.
  intros Hiter Hle Htake H He.
  rewrite (@decode_as_tuple_loop rec args json (pre ++ element :: post) path);
    [|exact (iter_args_take_nonempty _ _ _ Htake)|exact Hiter|exact Hle].
  exact (@tuple_loop_take path element post e t pre (_iter_args args) tys vs 0 []
           Htake H He).
Qed.

End Variadic.

(** X5.  On a descriptor list [fixed ++ [T; ...]] the variadic marker
    repeats [T]: an input whose leading elements decode against [fixed],
    the next one against [T], and any number [k] of further ones against
    [T] again, each at the path extended by its index, decodes to the
    fixed-arity sequence of all the decoded elements. *)
Theorem X5_tuple_variadic_tail {builtins : PyBuiltins} (fixed : list ty) (T : ty)
    (k : nat) (json : value) (elements vs : list value) (path : Path) :
  no_ellipsis (fixed ++ [T]) = true ->
  py_iter json = Return elements ->
  decodes_each decode path 0 ((fixed ++ [T]) ++ repeat T k) elements vs ->
  decode_as_tuple decode (TTuple (fixed ++ [T; TEllipsis])) json path
  = Return (Decoded (VTuple vs))
  /\ decode (TTuple (fixed ++ [T; TEllipsis])) json path = Return (Decoded (VTuple vs))
  /\ List.length vs = List.length fixed + 1 + k.
Proof.
  intros Hno Hiter H.
  pose proof (@decode_as_tuple_variadic decode fixed T k json elements vs path
                Hno Hiter H) as Ht.
  split; [exact Ht|]. split; [rewrite decode_TTuple, Ht; reflexivity|].
  destruct (decodes_each_length _ _ _ _ _ _ H) as [_ ->].
  rewrite !length_app, repeat_length. reflexivity.
Qed.

Lemma X5_tuple_variadic_tail_witness :
  decode (TTuple [TInt; TBool; TEllipsis])
    (VList [VInt 1; VBool true; VBool false; VBool true]) ["k"]
  = Return (Decoded (VTuple [VInt 1; VBool true; VBool false; VBool true])).
Proof.
  apply (@X5_tuple_variadic_tail tree_builtins [TInt] TBool 2
           (VList [VInt 1; VBool true; VBool false; VBool true])
           [VInt 1; VBool true; VBool false; VBool true]
           [VInt 1; VBool true; VBool false; VBool true] ["k"]).
  - reflexivity.
  - reflexivity.
  - vm_compute. auto.
Defined.

(** X6.  The fixed-arity sequence strategy stops at the first position
    that fails, wherever it is: when the input is long enough, the
    generator of the descriptor list yields [tys] for the elements before
    the position and [t] for the element at the position (written
    descriptors or the repeated one of a variadic tail), the elements
    before decode against [tys] and the element at the position fails
    against [t], that error is returned whatever follows. *)
Theorem X6_tuple_first_failure {builtins : PyBuiltins} (args tys : list ty) (t : ty)
    (json : value) (pre : list value) (element : value)
    (post vs : list value) (e : DecodingError) (path : Path) :
  py_iter json = Return (pre ++ element :: post) ->
  (required_minimum args <= Z.of_nat (List.length (pre ++ element :: post)))%Z ->
  iter_args_take (S (List.length pre)) (_iter_args args) = Return (tys ++ [t]) ->
  decodes_each decode path 0 tys pre vs ->
  decode t element (path ++ [str_of_index (List.length pre)]) = Return (Failed e) ->
  decode_as_tuple decode (TTuple args) json path = Return (Failed e)
  /\ decode (TTuple args) json path = Return (settle path (Failed e)).
Proof.
  intros Hiter Hle Htake H He.
  pose proof (@decode_as_tuple_first_failure decode args tys t json pre element post vs e
                path Hiter Hle Htake H He) as Hf.
  split; [exact Hf|]. rewrite decode_TTuple, Hf. reflexivity.
Qed.

Lemma X6_tuple_first_failure_witness :
  decode (TTuple [TInt; TStr; TBool]) (VList [VInt 1; VInt 2; VNone]) ["k"]
  = Return (Error (TypeMismatch ["k"; "1"]))
  /\ decode (TTuple [TStr; TInt; TEllipsis])
       (VList [VStr "a"; VInt 1; VInt 2; VStr "x"; VInt 4]) ["k"]
     = Return (Error (TypeMismatch ["k"; "3"])).
Proof.
  split.
  - apply (@X6_tuple_first_failure tree_builtins [TInt; TStr; TBool] [TInt] TStr
             (VList [VInt 1; VInt 2; VNone]) [VInt 1] (VInt 2) [VNone] [VInt 1]
             (mkDecodingError (TypeMismatch ["k"; "1"])) ["k"]).
    + reflexivity.
    + vm_compute. discriminate.
    + reflexivity.
    + vm_compute. auto.
    + vm_compute. reflexivity.
  - apply (@X6_tuple_first_failure tree_builtins [TStr; TInt; TEllipsis]
             [TStr; TInt; TInt] TInt
             (VList [VStr "a"; VInt 1; VInt 2; VStr "x"; VInt 4])
             [VStr "a"; VInt 1; VInt 2] (VStr "x") [VInt 4] [VStr "a"; VInt 1; VInt 2]
             (mkDecodingError (TypeMismatch ["k"; "3"])) ["k"]).
    + reflexivity.
    + vm_compute. discriminate.
    + reflexivity.
    + vm_compute. auto.
    + vm_compute. reflexivity.
Defined.

(** X7.  A descriptor that lacks its type arguments makes the engine
    raise instead of returning an error: a sequence descriptor without
    element descriptor is an [IndexError] on every input; a mapping
    descriptor without exactly two arguments is a [ValueError] on every
    mapping input; a fixed-arity descriptor without element descriptors is
    an [IndexError] on every sized input; one that starts with the variadic
    marker is a [RuntimeError] on every sized input that is long enough; a
    sum type without alternatives is an [UnboundLocalError]. *)
Theorem X7_missing_type_arguments {builtins : PyBuiltins} (json : value) (path : Path) :
  decode (TList []) json path = Raise ExIndexError
  /\ (forall args items,
        json = VDict items -> List.length args <> 2 ->
        decode (TDict args) json path = Raise ExValueError)
  /\ (forall elements,
        py_iter json = Return elements ->
        decode (TTuple []) json path = Raise ExIndexError)
  /\ (forall rest elements,
        py_iter json = Return elements ->
        (required_minimum (TEllipsis :: rest) <= Z.of_nat (List.length elements))%Z ->
        decode (TTuple (TEllipsis :: rest)) json path = Raise ExRuntimeError)
  /\ decode (TUnion []) json path = Raise ExUnboundLocalError.
Proof.
  split; [rewrite decode_TList; reflexivity|].
  split.
  { intros args items -> Hlen. rewrite decode_TDict. unfold decode_as_dict.
    cbn [origin_of args_of].
    destruct args as [|K [|V [|? ?]]]; try reflexivity. contradiction Hlen. reflexivity. }
  split.
  { intros elements Hiter. rewrite decode_TTuple. unfold decode_as_tuple.
    cbn [origin_of args_of]. pose proof (py_iter_len _ Hiter) as Hlen.
    destruct json; try discriminate Hiter; rewrite Hlen; reflexivity. }
  split.
  { intros rest elements Hiter Hle. rewrite decode_TTuple.
    rewrite (@decode_as_tuple_loop decode (TEllipsis :: rest) json elements path);
      [|discriminate|exact Hiter|exact Hle].
    destruct elements; reflexivity. }
  rewrite decode_TUnion. reflexivity.
Qed.

Lemma X7_missing_type_arguments_witness :
  decode (TDict [TStr]) (VDict []) [] = Raise ExValueError
  /\ decode (TTuple [TEllipsis]) (VList []) [] = Raise ExRuntimeError.
Proof.
  split.
  - apply (proj1 (proj2 (@X7_missing_type_arguments tree_builtins (VDict []) []))
             [TStr] [] eq_refl). discriminate.
  - apply (proj1 (proj2 (proj2 (proj2
             (@X7_missing_type_arguments tree_builtins (VList []) []))))
             [] [] eq_refl). vm_compute. discriminate.
Defined.

(* ------------------------------------------------------------------ *)
(** ** More on the scalar strategy and on the dispatcher *)

(** X8.  Against the floating-point descriptor an input whose class is
    neither [float] nor [int] is a [TypeMismatch] at the current path, a
    boolean included although it is an instance of [int]; a [float] input
    is returned as it is; an [int] input is converted, and when it is too
    large for a binary64 the [OverflowError] of the conversion leaves the
    engine. *)
Theorem X8_float_target {builtins : PyBuiltins} (json : value) (path : Path) :
  (type_of json <> CFloat -> type_of json <> CInt ->
     decode_as_primitive TFloat json path = Return (Error (TypeMismatch path))
     /\ decode TFloat json path = Return (Error (TypeMismatch path)))
  /\ (forall f, decode TFloat (VFloat f) path = Return (Decoded (VFloat f)))
  /\ (forall z f, float_of_int z = Return f ->
        decode TFloat (VInt z) path = Return (Decoded (VFloat f)))
  /\ (forall z, float_of_int z = Raise ExOverflowError ->
        decode TFloat (VInt z) path = Raise ExOverflowError)
  /\ (forall b, isinstance (VBool b) CInt = true
                /\ decode TFloat (VBool b) path = Return (Error (TypeMismatch path)))
  /\ decode TFloat (VInt (2 ^ 1024)) path = Raise ExOverflowError.
Proof.
  assert (Hd : forall j, decode TFloat j path
                = bind (decode_as_primitive TFloat j path)
                       (fun result => Return (settle path result))).
  { intros j. apply decode_scalar; reflexivity. }
  split.
  { intros Hf Hi.
    assert (H : decode_as_primitive TFloat json path = Return (Error (TypeMismatch path))).
    { destruct json; try reflexivity; contradiction. }
    split; [exact H|]. rewrite Hd, H. reflexivity. }
  split; [intros f; rewrite Hd; reflexivity|].
  split.
  { intros z f Hz. rewrite Hd. unfold decode_as_primitive.
    cbn [is_float type_of py_float]. rewrite Hz. reflexivity. }
  split.
  { intros z Hz. rewrite Hd. unfold decode_as_primitive.
    cbn [is_float type_of py_float]. rewrite Hz. reflexivity. }
  split; [intros b; split; [reflexivity|rewrite Hd; reflexivity]|].
  rewrite Hd. vm_compute. reflexivity.
Qed.

Lemma X8_float_target_witness :
  decode TFloat (VStr "3") ["k"] = Return (Error (TypeMismatch ["k"]))
  /\ decode TFloat (VInt (2 ^ 53 + 1)) ["k"]
     = Return (Decoded (VFloat (SpecFloat.S754_finite false 4503599627370496 1))).
Proof.
  pose proof (@X8_float_target tree_builtins (VStr "3") ["k"]) as (Hother & _ & Hint & _).
  split.
  - apply Hother; discriminate.
  - apply Hint. vm_compute. reflexivity.
Defined.

(** X9.  Against a scalar with the wire supertype [S], an input that is
    not an instance of [S] is a [TypeMismatch] at the current path; an
    instance of [S], of a subclass too, is handed to the constructor of the
    scalar, whose value is the result and whose exception, if it raises,
    leaves the engine.  So a boolean is accepted where the supertype is
    [int], which the integer descriptor itself refuses. *)
Theorem X9_wire_supertype {builtins : PyBuiltins} (name : string) (S : pyclass)
    (make : value -> res value) (json : value) (path : Path) :
  (isinstance json S = false ->
     decode (TNewType name S make) json path = Return (Error (TypeMismatch path)))
  /\ (forall v, isinstance json S = true -> make json = Return v ->
        decode (TNewType name S make) json path = Return (Decoded v))
  /\ (forall x, isinstance json S = true -> make json = Raise x ->
        decode (TNewType name S make) json path = Raise x)
  /\ decode (TNewType name CInt Return) (VBool true) path = Return (Decoded (VBool true))
  /\ decode TInt (VBool true) path = Return (Error (TypeMismatch path)).
Proof.
  assert (Hd : forall S' make' j, decode (TNewType name S' make') j path
                = bind (decode_as_primitive (TNewType name S' make') j path)
                       (fun result => Return (settle path result))).
  { intros S' make' j. apply decode_scalar; reflexivity. }
  split; [|split; [|split; [|split]]].
  - intros Hi. rewrite Hd. unfold decode_as_primitive.
    cbn [is_float primitive_class supertype_of]. rewrite Hi. reflexivity.
  - intros v Hi Hv. rewrite Hd. unfold decode_as_primitive.
    cbn [is_float primitive_class supertype_of call_scalar]. rewrite Hi, Hv. reflexivity.
  - intros x Hi Hx. rewrite Hd. unfold decode_as_primitive.
    cbn [is_float primitive_class supertype_of call_scalar]. rewrite Hi, Hx. reflexivity.
  - rewrite Hd. reflexivity.
  - rewrite (decode_scalar TInt (VBool true) path eq_refl eq_refl eq_refl). reflexivity.
Qed.

Lemma X9_wire_supertype_witness :
  decode (TNewType "UserId" CStr Return) (VInt 5) ["k"] = Return (Error (TypeMismatch ["k"]))
  /\ decode (TNewType "Positive" CInt (fun _ => Raise ExValueError)) (VInt 5) ["k"]
     = Raise ExValueError.
Proof.
  split.
  - apply (proj1 (@X9_wire_supertype tree_builtins "UserId" CStr Return (VInt 5) ["k"])).
    reflexivity.
  - apply (proj1 (proj2 (proj2 (@X9_wire_supertype tree_builtins "Positive" CInt
             (fun _ => Raise ExValueError) (VInt 5) ["k"]))) ExValueError);
      reflexivity.
Defined.

(** X10.  On a descriptor that has no origin, no field hints and no wire
    supertype and is neither the floating-point descriptor, nor in the
    exact scalar set, nor the wildcard, the dispatcher returns
    [UnsupportedDecoding] at the current path on every input; the variadic
    marker, an unbound generic parameter and a class without hints are such
    descriptors. *)
Theorem X10_no_strategy_applies {builtins : PyBuiltins} (type_ : ty) (json : value)
    (path : Path) :
  origin_of type_ = None -> hints_of type_ = None -> supertype_of type_ = None ->
  is_float type_ = false -> primitive_class type_ = None -> is_Any type_ = false ->
  decode type_ json path = Return (Error (UnsupportedDecoding path))
  /\ decode TEllipsis json path = Return (Error (UnsupportedDecoding path))
  /\ (forall name, decode (TTypeVar name) json path
                   = Return (Error (UnsupportedDecoding path)))
  /\ (forall name, decode (TOther name) json path
                   = Return (Error (UnsupportedDecoding path))).
Proof.
  assert (H : forall t, origin_of t = None -> hints_of t = None ->
                supertype_of t = None -> is_float t = false ->
                primitive_class t = None -> is_Any t = false ->
                decode t json path = Return (Error (UnsupportedDecoding path))).
  { intros t Ho Hh Hs Hf Hp Ha. rewrite (decode_scalar t json path Ho Hh Ha).
    unfold decode_as_primitive. rewrite Hf, Hp, Hs. reflexivity. }
  intros Ho Hh Hs Hf Hp Ha. split; [now apply H|].
  repeat split; intros; now apply H.
Qed.

Lemma X10_no_strategy_applies_witness :
  decode (TOther "bytes") (VStr "x") ["k"] = Return (Error (UnsupportedDecoding ["k"])).
Proof.
  apply (@X10_no_strategy_applies tree_builtins (TOther "bytes") (VStr "x") ["k"]);
    reflexivity.
Defined.

(** X11.  On a mapping descriptor and on a record descriptor an input
    that is not a mapping is no [TypeMismatch]: the strategy does not
    apply, and the dispatcher returns [UnsupportedDecoding] at the current
    path. *)
Theorem X11_mapping_needs_dict {builtins : PyBuiltins} (json : value) (path : Path) :
  (forall items, json <> VDict items) ->
  (forall args, decode (TDict args) json path = Return (Error (UnsupportedDecoding path)))
  /\ (forall name hints init,
        decode (TClass name hints init) json path
        = Return (Error (UnsupportedDecoding path))).
Proof.
  intros Hnot. split.
  - intros args. rewrite decode_TDict. unfold decode_as_dict.
    destruct json; try reflexivity. now contradiction (Hnot d).
  - intros name hints init. rewrite decode_TClass. unfold decode_as_class.
    destruct json; try reflexivity. now contradiction (Hnot d).
Qed.

Lemma X11_mapping_needs_dict_witness :
  decode (TDict [TStr; TInt]) (VList [VInt 1]) ["k"]
  = Return (Error (UnsupportedDecoding ["k"])).
Proof.
  apply (proj1 (@X11_mapping_needs_dict tree_builtins (VList [VInt 1]) ["k"]
                  ltac:(discriminate))).
Defined.

(** X12.  An optional descriptor is the sum type of [X] and null.  What
    [X] decodes, the optional decodes to the same; null, which [X] refuses,
    decodes to null; when [X] refuses an input that is not null, the error
    of [X] is dropped and the result is the [TypeMismatch] of the null
    alternative at the path of the optional. *)
Theorem X12_optional {builtins : PyBuiltins} (X : ty) (json : value) (path : Path) :
  is_TypeVar X = false ->
  (forall v, decode X json path = Return (Decoded v) ->
     decode (TUnion [X; TNoneType]) json path = Return (Decoded v))
  /\ (forall e, json = VNone -> decode X json path = Return (Failed e) ->
        decode (TUnion [X; TNoneType]) json path = Return (Decoded VNone))
  /\ (forall e, json <> VNone -> decode X json path = Return (Failed e) ->
        decode (TUnion [X; TNoneType]) json path = Return (Error (TypeMismatch path))).
Proof.
  intros HX.
  assert (Hu : decode (TUnion [X; TNoneType]) json path
               = bind (bind (decode X json path) (fun decoded =>
                         match decoded with
                         | Decoded _ => Return decoded
                         | Failed _ =>
                             bind (decode TNoneType json path) (fun decoded' =>
                               match decoded' with
                               | Decoded _ => Return decoded'
                               | Failed _ => Return decoded'
                               end)
                         end))
                      (fun result => Return (settle path result))).
  { rewrite decode_TUnion. unfold decode_as_union.
    cbn [origin_of args_of existsb is_TypeVar]. rewrite HX. reflexivity. }
  assert (Hn : decode TNoneType json path
               = Return (if pyclass_eqb (type_of json) CNoneType
                         then Decoded json else Error (TypeMismatch path))).
  { rewrite (decode_scalar TNoneType json path eq_refl eq_refl eq_refl).
    unfold decode_as_primitive. cbn [is_float primitive_class].
    destruct (pyclass_eqb (type_of json) CNoneType); reflexivity. }
  split; [|split].
  - intros v Hv. rewrite Hu, Hv. reflexivity.
  - intros e -> He. rewrite Hu, He. cbn [bind]. rewrite Hn. reflexivity.
  - intros e Hne He. rewrite Hu, He. cbn [bind]. rewrite Hn.
    destruct json; try reflexivity. contradiction.
Qed.

Lemma X12_optional_witness :
  decode (TUnion [TInt; TNoneType]) (VInt 5) ["k"] = Return (Decoded (VInt 5))
  /\ decode (TUnion [TList [TInt]; TNoneType]) (VList [VStr "x"]) ["k"]
     = Return (Error (TypeMismatch ["k"])).
Proof.
  split.
  - apply (proj1 (@X12_optional tree_builtins TInt (VInt 5) ["k"] eq_refl)).
    vm_compute. reflexivity.
  - apply (proj2 (proj2 (@X12_optional tree_builtins (TList [TInt]) (VList [VStr "x"])
             ["k"] eq_refl)) (mkDecodingError (TypeMismatch ["k"; "0"]))).
    + discriminate.
    + vm_compute. reflexivity.
Defined.

Lemma decode_loop_unsupported_path (ds : list decoder) (type_ : ty) (json : value)
    (path : Path) : forall best e,
  (forall e', best = Failed e' -> is_UnsupportedDecoding (reason e') = true ->
              reason e' = UnsupportedDecoding path) ->
  decode_loop ds best type_ json path = Return (Failed e) ->
  is_UnsupportedDecoding (reason e) = true ->
  reason e = UnsupportedDecoding path.
Proof.
  induction ds as [|d ds IH]; intros best e Hbest H He.
  - injection H as ->. now apply Hbest.
  - cbn [decode_loop] in H.
    destruct (d type_ json path) as [[v|e1]|x]; try discriminate H. cbn [bind] in H.
    destruct (is_UnsupportedDecoding (reason e1)) eqn:E1; cbn [negb] in H.
    + now apply (IH best e Hbest).
    + apply (IH (Failed e1) e); auto. intros e' [= <-] He'. congruence.
Qed.

(** X13.  An [UnsupportedDecoding] that the dispatcher returns carries the
    path the dispatcher was called with: an [UnsupportedDecoding] met
    inside a sequence, a mapping or a record is not passed on but reported
    at the path of the container. *)
Theorem X13_unsupported_at_own_path {builtins : PyBuiltins} (type_ : ty) (json : value)
    (path p : Path) :
  decode type_ json path = Return (Error (UnsupportedDecoding p)) ->
  p = path.
Proof.
  intros H. rewrite decode_unfold in H. unfold decode_body in H.
  apply decode_loop_unsupported_path in H; [now injection H| |reflexivity].
  intros e' [= <-] _. reflexivity.
Qed.

Lemma X13_unsupported_at_own_path_witness :
  decode (TList [TOther "bytes"]) (VList [VInt 1]) ["k"]
  = Return (Error (UnsupportedDecoding ["k"]))
  /\ ["k"] = ["k"].
Proof.
  assert (H : decode (TList [TOther "bytes"]) (VList [VInt 1]) ["k"]
              = Return (Error (UnsupportedDecoding ["k"])))
    by (rewrite decode_TList; vm_compute; reflexivity).
  split; [exact H|].
  exact (@X13_unsupported_at_own_path tree_builtins (TList [TOther "bytes"])
           (VList [VInt 1]) ["k"] ["k"] H).
Defined.

(* ------------------------------------------------------------------ *)
(** ** The paths of the errors *)

(** X14.  The path of an error that the dispatcher returns starts with the
    path the dispatcher was called with: decoding extends the path and
    never shortens or replaces it. *)
Theorem X14_error_path_extends {builtins : PyBuiltins} (type_ : ty) (json : value)
    (path : Path) (e : DecodingError) :
  decode type_ json path = Return (Failed e) ->
  exists segments, path_of (reason e) = path ++ segments.
Proof.
  intros H. pose proof (decode_blind type_ json path path) as Hs.
  rewrite H in Hs. cbn [shifted] in Hs.
  destruct (reason e); cbn [reason_shift path_of] in *.
  - destruct Hs as (s & -> & _). now exists s.
  - destruct Hs as (s & -> & _). now exists s.
  - destruct Hs as (_ & s & -> & _). now exists s.
Qed.

Lemma X14_error_path_extends_witness :
  exists segments,
    path_of (TypeMismatch ["k"; "1"]) = ["k"] ++ segments.
Proof.
  apply (@X14_error_path_extends tree_builtins (TList [TInt])
           (VList [VInt 1; VStr "x"]) ["k"] (mkDecodingError (TypeMismatch ["k"; "1"]))).
  rewrite decode_TList. vm_compute. reflexivity.
Defined.

(** X15.  The path a decoding is called with reaches the errors only: at
    another path the dispatcher returns the same decoded value, raises the
    same exception, or fails with an error of the same kind whose path is
    the other path followed by the same segments. *)
Theorem X15_path_reaches_errors_only {builtins : PyBuiltins} (type_ : ty) (json : value)
    (p p' : Path) :
  (forall v, decode type_ json p = Return (Decoded v) ->
             decode type_ json p' = Return (Decoded v))
  /\ (forall x, decode type_ json p = Raise x -> decode type_ json p' = Raise x)
  /\ (forall e, decode type_ json p = Return (Failed e) ->
        exists e', decode type_ json p' = Return (Failed e')
                   /\ kind_of (reason e') = kind_of (reason e)
                   /\ exists segments, path_of (reason e) = p ++ segments
                                       /\ path_of (reason e') = p' ++ segments).
Proof.
  pose proof (decode_blind type_ json p p') as Hs.
  split; [|split].
  - intros v H. rewrite H in Hs.
    destruct (decode type_ json p') as [[v'|e']|x']; cbn [shifted] in Hs;
      try contradiction. now subst.
  - intros x H. rewrite H in Hs.
    destruct (decode type_ json p') as [[v'|e']|x']; cbn [shifted] in Hs;
      try contradiction. now subst.
  - intros e H. rewrite H in Hs.
    destruct (decode type_ json p') as [[v'|e']|x']; cbn [shifted] in Hs;
      try contradiction.
    exists e'. split; [reflexivity|].
    destruct (reason e), (reason e'); cbn [reason_shift] in Hs; try contradiction;
      cbn [kind_of path_of]; (split; [reflexivity|]).
    + destruct Hs as (s & -> & ->). now exists s.
    + destruct Hs as (s & -> & ->). now exists s.
    + destruct Hs as (_ & s & -> & ->). now exists s.
Qed.

Lemma X15_path_reaches_errors_only_witness :
  decode (TList [TInt]) (VList [VInt 1; VInt 2]) ["a"; "b"]
  = Return (Decoded (VList [VInt 1; VInt 2])).
Proof.
  apply (proj1 (@X15_path_reaches_errors_only tree_builtins (TList [TInt])
                  (VList [VInt 1; VInt 2]) [] ["a"; "b"])).
  rewrite decode_TList. vm_compute. reflexivity.
Defined.

(* ------------------------------------------------------------------ *)
(** ** More on the record strategy *)

Section RecordFields.

Context {builtins : PyBuiltins}.
Variable rec : decoder.

Lemma class_parameters_fields items path annotations :
  class_parameters rec items path annotations
  = decode_fields rec items path (present_hints items annotations).
Proof.
  induction annotations as [|[p a] annotations IH]; [reflexivity|].
  cbn [class_parameters]. unfold present_hints. cbn [filter fst].
  destruct (dict_contains p items); [|exact IH].
  unfold _decode. cbn [decode_fields]. fold (present_hints items annotations).
  now rewrite IH.
Qed.

Lemma decode_fields_failure items path post p a e : forall pre kw,
  fields_decode rec items path pre kw ->
  rec a (dict_get p items) (path ++ [p]) = Return (Failed e) ->
  Forall (fun h => exists o,
            rec (snd h) (dict_get (fst h) items) (path ++ [fst h]) = Return o) post ->
  exists parameters,
    decode_fields rec items path (pre ++ (p, a) :: post) = Return parameters
    /\ first_error parameters = Some e.
Proof.
  intros pre kw Hpre Ha Hpost.
  assert (Hp : exists ps, decode_fields rec items path post = Return ps).
  { induction Hpost as [|[q b] post [o Ho] _ [ps IH]]; [now exists []|].
    cbn [decode_fields]. cbn [fst snd] in Ho. rewrite Ho, IH. cbn [bind]. eauto. }
  destruct Hp as [ps Hps]. revert kw Hpre.
  induction pre as [|[q b] pre IH]; intros kw Hpre.
  - cbn [app decode_fields]. rewrite Ha, Hps. cbn [bind]. eexists. split; reflexivity.
  - destruct kw as [|[q' v] kw]; [contradiction|]. destruct Hpre as (-> & Hv & Hpre).
    destruct (IH kw Hpre) as (parameters & Hparams & Herr).
    cbn [app decode_fields]. rewrite Hv, Hparams. cbn [bind].
    eexists. split; [reflexivity|]. exact Herr.
Qed.

Lemma decode_fields_raise items path post p a x : forall pre,
  Forall (fun h => exists o,
            rec (snd h) (dict_get (fst h) items) (path ++ [fst h]) = Return o) pre ->
  rec a (dict_get p items) (path ++ [p]) = Raise x ->
  decode_fields rec items path (pre ++ (p, a) :: post) = Raise x.
Proof.
  intros pre Hpre Ha.
  induction Hpre as [|[q b] pre [o Ho] _ IH]; cbn [app decode_fields].
  - now rewrite Ha.
  - cbn [fst snd] in Ho. rewrite Ho, IH. reflexivity.
Qed.

Lemma class_parameters_same_keys path items1 items2 : forall annotations,
  (forall p, In p (map fst annotations) ->
     dict_contains p items1 = dict_contains p items2
     /\ dict_get p items1 = dict_get p items2) ->
  class_parameters rec items1 path annotations
  = class_parameters rec items2 path annotations.
Proof.
  induction annotations as [|[p a] annotations IH]; intros H; [reflexivity|].
  cbn [class_parameters]. destruct (H p (or_introl eq_refl)) as [Hc Hg].
  unfold _decode. rewrite Hc, Hg, IH; [reflexivity|].
  intros q Hq. apply H. now right.
Qed.

End RecordFields.

(** X16.  The record strategy decodes every present field before it looks
    at any result.  When the present fields before [p] decode, [p] fails
    and the present fields after [p] return, the error of [p] is returned
    and the record is not constructed.  When a present field raises and
    the fields before it return, the exception leaves the engine, also when
    one of the fields before it has failed. *)
Theorem X16_record_field_failure {builtins : PyBuiltins} (rec : decoder) (name : string)
    (hints : list (string * ty)) (init : list (string * value) -> init_result)
    (items : list (value * value)) (path : Path)
    (pre post : list (string * ty)) (p : string) (a : ty) :
  present_hints items hints = pre ++ (p, a) :: post ->
  (forall kw e,
     fields_decode rec items path pre kw ->
     rec a (dict_get p items) (path ++ [p]) = Return (Failed e) ->
     Forall (fun h => exists o,
               rec (snd h) (dict_get (fst h) items) (path ++ [fst h]) = Return o) post ->
     decode_as_class rec (TClass name hints init) (VDict items) path = Return (Failed e))
  /\ (forall x,
        Forall (fun h => exists o,
                  rec (snd h) (dict_get (fst h) items) (path ++ [fst h]) = Return o) pre ->
        rec a (dict_get p items) (path ++ [p]) = Raise x ->
        decode_as_class rec (TClass name hints init) (VDict items) path = Raise x).
Proof.
  intros Hpresent. split.
  - intros kw e Hpre Ha Hpost. unfold decode_as_class. cbn [hints_of].
    rewrite class_parameters_fields, Hpresent.
    destruct (@decode_fields_failure rec items path post p a e pre kw Hpre Ha Hpost)
      as (parameters & -> & Herr).
    cbn [bind]. rewrite Herr. reflexivity.
  - intros x Hpre Ha. unfold decode_as_class. cbn [hints_of].
    rewrite class_parameters_fields, Hpresent.
    rewrite (@decode_fields_raise rec items path post p a x pre Hpre Ha). reflexivity.
Qed.

Lemma X16_record_field_failure_witness :
  decode_as_class decode Person
    (VDict [(VStr "age", VStr "old"); (VStr "name", VInt 7)]) ["k"]
  = Return (Error (TypeMismatch ["k"; "name"])).
Proof.
  unfold Person.
  apply (proj1 (@X16_record_field_failure tree_builtins decode "Person"
                  [("name", TStr); ("age", TUnion [TInt; TNoneType])] Person_init
                  [(VStr "age", VStr "old"); (VStr "name", VInt 7)] ["k"]
                  [] [("age", TUnion [TInt; TNoneType])] "name" TStr eq_refl)
           [] (mkDecodingError (TypeMismatch ["k"; "name"]))).
  - exact I.
  - vm_compute. reflexivity.
  - repeat constructor. eexists. vm_compute. reflexivity.
Defined.

(** X17.  The record strategy reads the input under the hinted names
    only: two mapping inputs that have the same hinted names as keys, with
    the same values under them, give the same result.  So an entry whose
    key is no hinted name is ignored, wherever it stands. *)
Theorem X17_record_ignores_other_keys {builtins : PyBuiltins} (rec : decoder)
    (name : string) (hints : list (string * ty))
    (init : list (string * value) -> init_result)
    (items1 items2 : list (value * value)) (path : Path) :
  (forall p, In p (map fst hints) ->
     dict_contains p items1 = dict_contains p items2
     /\ dict_get p items1 = dict_get p items2) ->
  decode_as_class rec (TClass name hints init) (VDict items1) path
  = decode_as_class rec (TClass name hints init) (VDict items2) path.
Proof.
  intros H. unfold decode_as_class. cbn [hints_of].
  now rewrite (@class_parameters_same_keys rec path items1 items2 hints H).
Qed.

Lemma X17_record_ignores_other_keys_witness :
  decode_as_class decode Person
    (VDict [(VStr "nickname", VInt 0); (VStr "name", VStr "Al")]) []
  = decode_as_class decode Person (VDict [(VStr "name", VStr "Al")]) [].
Proof.
  unfold Person.
  apply (@X17_record_ignores_other_keys tree_builtins decode "Person"
           [("name", TStr); ("age", TUnion [TInt; TNoneType])] Person_init
           [(VStr "nickname", VInt 0); (VStr "name", VStr "Al")]
           [(VStr "name", VStr "Al")] []).
  intros p [<-|[<-|[]]]; split; reflexivity.
Defined.

(* ------------------------------------------------------------------ *)
(** ** More on the equality of errors *)

Lemma Path_eqb_refl (p : Path) : Path_eqb p p = true.
Proof. now apply Path_eqb_eq. Qed.

Lemma Path_eqb_sym (p q : Path) : Path_eqb p q = Path_eqb q p.
Proof.
  destruct (Path_eqb p q) eqn:E.
  - apply Path_eqb_eq in E. subst. symmetry. apply Path_eqb_refl.
  - destruct (Path_eqb q p) eqn:E'; [|reflexivity].
    apply Path_eqb_eq in E'. subst. now rewrite Path_eqb_refl in E.
Qed.

(** X18.  The equality of failure reasons and the equality of decoding
    errors are equivalences: a reason equals itself, [a == b] and [b == a]
    agree, and [a == b] with [b == c] gives [a == c]. *)
Theorem X18_equality_is_equivalence (r1 r2 r3 : FailureReason) (e1 e2 e3 : DecodingError) :
  FailureReason_eq r1 (ObjReason r1) = true
  /\ FailureReason_eq r1 (ObjReason r2) = FailureReason_eq r2 (ObjReason r1)
  /\ (FailureReason_eq r1 (ObjReason r2) = true ->
      FailureReason_eq r2 (ObjReason r3) = true ->
      FailureReason_eq r1 (ObjReason r3) = true)
  /\ DecodingError_eq e1 (ObjError e1) = true
  /\ DecodingError_eq e1 (ObjError e2) = DecodingError_eq e2 (ObjError e1)
  /\ (DecodingError_eq e1 (ObjError e2) = true ->
      DecodingError_eq e2 (ObjError e3) = true ->
      DecodingError_eq e1 (ObjError e3) = true).
Proof.
  assert (Hrefl : forall r, FailureReason_eq r (ObjReason r) = true).
  { intros [p|p|p u]; simpl; rewrite ?Path_eqb_refl; auto.
    unfold TypeError_eq. now rewrite N.eqb_refl. }
  assert (Hsym : forall a b, FailureReason_eq a (ObjReason b)
                             = FailureReason_eq b (ObjReason a)).
  { intros [p|p|p u] [q|q|q v]; simpl; try reflexivity; try apply Path_eqb_sym.
    unfold TypeError_eq. now rewrite N.eqb_sym, Path_eqb_sym. }
  assert (Htrans : forall a b c, FailureReason_eq a (ObjReason b) = true ->
                                 FailureReason_eq b (ObjReason c) = true ->
                                 FailureReason_eq a (ObjReason c) = true).
  { intros [p|p|p u] [q|q|q v] [s|s|s w]; simpl; try discriminate;
      rewrite ?andb_true_iff, ?Path_eqb_eq; unfold TypeError_eq;
      rewrite ?N.eqb_eq; try congruence.
    intros [-> ->] [-> ->]. auto. }
  split; [apply Hrefl|]. split; [apply Hsym|]. split; [apply Htrans|].
  split; [apply (Hrefl (reason e1))|].
  split; [apply (Hsym (reason e1) (reason e2))|].
  apply (Htrans (reason e1) (reason e2) (reason e3)).
Qed.

Lemma X18_equality_is_equivalence_witness :
  FailureReason_eq (TypeMismatch ["a"]) (ObjReason (TypeMismatch ["a"])) = true.
Proof.
  pose proof (X18_equality_is_equivalence (TypeMismatch ["a"]) (TypeMismatch ["a"])
                (TypeMismatch ["a"]) (mkDecodingError (TypeMismatch []))
                (mkDecodingError (TypeMismatch [])) (mkDecodingError (TypeMismatch [])))
    as (_ & _ & Htrans & _).
  apply Htrans; reflexivity.
Defined.

(* ------------------------------------------------------------------ *)
(** ** More on the mapping strategy *)

Lemma dict_loop_text {builtins : PyBuiltins} K V path : text_key_type K ->
  forall items vs dict_decoded,
    text_keys items = true ->
    (forall s, dict_contains s items = true -> dict_contains s dict_decoded = false) ->
    Forall2 (fun item v =>
               decode V (snd item) (path ++ [py_str (fst item)]) = Return (Decoded v))
            items vs ->
    dict_loop decode K V items path dict_decoded
    = Return (Decoded (VDict (dict_decoded ++ combine (map fst items) vs))).
Proof.
  intros HK. induction items as [|[k element] rest IH]; intros vs acc Hkeys Hfresh H.
  - inversion H; subst. cbn [map combine dict_loop]. now rewrite app_nil_r.
  - inversion H as [|? v ? vs' Hv Hrest]; subst. cbn [fst snd] in Hv.
    cbn [text_keys] in Hkeys. destruct k as [| | | |s| | | | | |]; try discriminate Hkeys.
    apply andb_true_iff in Hkeys. destruct Hkeys as [Hs Hkeys].
    cbn [dict_loop]. rewrite Hv. cbn [bind]. rewrite (decode_text_key s _ HK). cbn [bind].
    destruct (@fresh_step s v element rest acc Hs Hfresh) as [Hnew Hfresh'].
    rewrite dict_setitem_str, (@dict_store_fresh s v acc Hnew). cbn [bind].
    rewrite (IH vs' _ Hkeys Hfresh' Hrest), <- app_assoc. reflexivity.
Qed.

(** X19.  On a mapping descriptor whose key descriptor is text or the
    wildcard, a mapping input with text keys whose values all decode, each
    at the path extended by its key, decodes to the mapping of the same
    keys in the same order, each with its decoded value. *)
Theorem X19_text_mapping_keeps_keys {builtins : PyBuiltins} (K V : ty)
    (items : list (value * value)) (vs : list value) (path : Path) :
  text_key_type K ->
  text_keys items = true ->
  Forall2 (fun item v =>
             decode V (snd item) (path ++ [py_str (fst item)]) = Return (Decoded v))
          items vs ->
  decode (TDict [K; V]) (VDict items) path
  = Return (Decoded (VDict (combine (map fst items) vs))).
Proof.
  intros HK Hkeys H. rewrite decode_TDict. unfold decode_as_dict.
  cbn [origin_of args_of].
  rewrite (@dict_loop_text _ K V path HK items vs [] Hkeys (fun _ _ => eq_refl) H).
  reflexivity.
Qed.

Lemma X19_text_mapping_keeps_keys_witness :
  decode (TDict [TStr; TFloat]) (VDict [(VStr "b", VInt 1); (VStr "a", VInt 0)]) ["k"]
  = Return (Decoded (VDict [(VStr "b", VFloat (SpecFloat.S754_finite false 4503599627370496 (-52)));
                            (VStr "a", VFloat (SpecFloat.S754_zero false))])).
Proof.
  apply (@X19_text_mapping_keeps_keys tree_builtins TStr TFloat
           [(VStr "b", VInt 1); (VStr "a", VInt 0)]
           [VFloat (SpecFloat.S754_finite false 4503599627370496 (-52));
            VFloat (SpecFloat.S754_zero false)] ["k"]).
  - now left.
  - reflexivity.
  - repeat constructor; vm_compute; reflexivity.
Defined.

(* ------------------------------------------------------------------ *)
(** ** The shape of a decoded sequence *)

Section Shape.

Context {builtins : PyBuiltins}.
Variable rec : decoder.

Lemma list_loop_length E path : forall elements index list_decoded R,
  list_loop rec E elements path index list_decoded = Return (Decoded R) ->
  exists vs, R = VList (list_decoded ++ vs) /\ List.length vs = List.length elements.
Proof.
  induction elements as [|e elements IH]; intros index acc R H.
  - injection H as <-. exists []. now rewrite app_nil_r.
  - cbn [list_loop] in H.
    destruct (rec E e _) as [[v|err]|x]; try discriminate H. cbn [bind] in H.
    destruct (IH _ _ _ H) as (vs & -> & Hlen). exists (v :: vs).
    rewrite <- app_assoc. split; [reflexivity|]. simpl. congruence.
Qed.

Lemma tuple_loop_length path : forall elements g index list_decoded R,
  tuple_loop rec g elements path index list_decoded = Return (Decoded R) ->
  exists vs, R = VTuple (list_decoded ++ vs)
    /\ List.length vs <= List.length elements
    /\ (List.length vs = List.length elements
        \/ exists args last, g = Walking args last /\ no_ellipsis args = true
                             /\ List.length vs = List.length args)
    /\ (forall args last, g = Walking args last -> no_ellipsis args = true ->
          List.length vs <= List.length args).
Proof.
  induction elements as [|e elements IH]; intros g index acc R H.
  - cbn [tuple_loop] in H.
    destruct (iter_args_next g) as [next|x]; [|discriminate].
    assert (HR : R = VTuple acc) by (destruct next as [[? ?]|]; now injection H as <-).
    subst R. exists []. rewrite app_nil_r. repeat split; auto. intros; simpl; lia.
  - cbn [tuple_loop] in H.
    destruct (iter_args_next g) as [[[t g']|]|x] eqn:Hnext; [| |discriminate].
    + cbn [bind] in H.
      destruct (rec t e _) as [[v|err]|x]; try discriminate H. cbn [bind] in H.
      destruct (IH _ _ _ _ H) as (vs & -> & Hle & Hlen & Hup).
      exists (v :: vs). rewrite <- app_assoc. split; [reflexivity|].
      split; [simpl; lia|]. split.
      * destruct Hlen as [Hlen|(args & last & -> & Hno & Hlen)];
          [left; simpl; congruence|].
        right. destruct g as [[|a rest] last0|last0]; simpl in Hnext; try discriminate.
        destruct (is_ellipsis a) eqn:Ea; [destruct last0; discriminate|].
        injection Hnext as _ Hrest _. subst args. exists (a :: rest), last0.
        split; [reflexivity|]. split; [|simpl; congruence].
        cbn [no_ellipsis forallb]. rewrite Ea. exact Hno.
      * intros args last -> Hno. destruct args as [|a rest]; [discriminate Hnext|].
        cbn [no_ellipsis forallb] in Hno. apply andb_true_iff in Hno.
        destruct Hno as [Ha Hno]. apply negb_true_iff in Ha.
        cbn [iter_args_next] in Hnext. rewrite Ha in Hnext. injection Hnext as _ <-.
        specialize (Hup rest (Some a) eq_refl Hno). simpl. lia.
    + cbn [bind] in H. injection H as <-. exists []. rewrite app_nil_r.
      split; [reflexivity|]. split; [simpl; lia|]. split; [|intros; simpl; lia].
      right. destruct g as [[|a rest] last0|last0]; simpl in Hnext.
      * exists [], last0. auto.
      * destruct (is_ellipsis a); [destruct last0|]; discriminate.
      * discriminate.
Qed.

End Shape.

(** X20.  A successful decoding against a sequence descriptor is a list
    with exactly as many elements as the iteration of the input yields:
    the strategy neither drops nor adds an element. *)
Theorem X20_list_keeps_length {builtins : PyBuiltins} (args : list ty) (json : value)
    (path : Path) (R : value) :
  decode (TList args) json path = Return (Decoded R) ->
  exists elements vs,
    py_iter json = Return elements /\ R = VList vs
    /\ List.length vs = List.length elements.
Proof.
  intros H. rewrite decode_TList in H. apply settle_decoded in H.
  unfold decode_as_list in H. cbn [origin_of args_of] in H.
  destruct args as [|E args]; [discriminate|].
  destruct (negb (is_iterable json)); [discriminate|].
  destruct (py_iter json) as [elements|x]; [|discriminate]. cbn [bind] in H.
  destruct (@list_loop_length decode E path elements 0 [] R H) as (vs & -> & Hlen).
  now exists elements, vs.
Qed.

Lemma X20_list_keeps_length_witness :
  exists elements vs,
    py_iter (VStr "ab") = Return elements /\ VList [VStr "a"; VStr "b"] = VList vs
    /\ List.length vs = List.length elements.
Proof.
  apply (@X20_list_keeps_length tree_builtins [TStr] (VStr "ab") []).
  rewrite decode_TList. vm_compute. reflexivity.
Defined.

(** X21.  A successful decoding against a fixed-arity sequence descriptor
    is a fixed-arity sequence that has at least the required minimum of
    elements and at most as many as the input: without a variadic marker
    it never has more elements than there are descriptors. *)
Theorem X21_tuple_length_bounds {builtins : PyBuiltins} (args : list ty) (json : value)
    (path : Path) (R : value) :
  decode (TTuple args) json path = Return (Decoded R) ->
  exists elements vs,
    py_iter json = Return elements /\ R = VTuple vs
    /\ (required_minimum args <= Z.of_nat (List.length vs))%Z
    /\ List.length vs <= List.length elements
    /\ (no_ellipsis args = true -> List.length vs = List.length args).
Proof.
  intros H. rewrite decode_TTuple in H. apply settle_decoded in H.
  apply decode_as_tuple_inv in H.
  destruct H as (Hne & elements & Hiter & Hle & Hloop).
  destruct (@tuple_loop_length decode path elements (_iter_args args) 0 [] R Hloop)
    as (vs & -> & Hbound & Hlen & Hup).
  assert (Hmin : (required_minimum args <= Z.of_nat (List.length vs))%Z).
  { destruct Hlen as [->|(args' & last & Hg & Hno & ->)]; [exact Hle|].
    injection Hg as <- _. rewrite (required_minimum_fixed _ Hno). lia. }
  exists elements, vs. split; [exact Hiter|]. split; [reflexivity|].
  split; [exact Hmin|]. split; [exact Hbound|].
  intros Hno. specialize (Hup args None eq_refl Hno).
  rewrite (required_minimum_fixed _ Hno) in Hmin. lia.
Qed.

Lemma X21_tuple_length_bounds_witness :
  exists elements vs,
    py_iter (VList [VInt 1; VInt 2; VInt 3]) = Return elements
    /\ VTuple [VInt 1] = VTuple vs
    /\ (required_minimum [TInt] <= Z.of_nat (List.length vs))%Z
    /\ List.length vs <= List.length elements
    /\ (no_ellipsis [TInt] = true -> List.length vs = List.length [TInt]).
Proof.
  apply (@X21_tuple_length_bounds tree_builtins [TInt] (VList [VInt 1; VInt 2; VInt 3]) []).
  rewrite decode_TTuple. vm_compute. reflexivity.
Defined.
